(** * Profile page (src/pages/Profile.tsx): loaders, mutator, handlers, view

    A shallow embedding of the asynchronous functions and event handlers of
    the [Profile] component.  Every call that leaves the component (the
    Supabase client, the clock, the clipboard, the toast hook, the form
    object, [window.prompt], the React state setters) is a command of a
    small free monad; a program is run against a [world] that answers the
    commands, and the run records the commands and their answers in a
    trace.  The page is the list of elements the component returns, each
    with the handlers it is given.  [setShowSettings] and
    [setIsLoadingImage] are declared nowhere in the component, so the
    statements that call them throw a [ReferenceError].
    [handleDeleteAvatar] and [handleDeleteCover], which no element fires,
    are left out. *)

From stdpp Require Import gmap strings list fin_maps.

Open Scope string_scope.

(** ** JavaScript values held in profile rows and form values *)

(** The fields of a profile row and of the form values are strings that may
    be [null] or missing ([undefined]). *)
Inductive jsval : Type :=
| JUndefined
| JNull
| JStr (s : string).

#[global] Instance jsval_eq_dec : EqDecision jsval.
Proof. solve_decision. Defined.

(** Reading a property that an object does not have gives [undefined]. *)
#[global] Instance jsval_inhabited : Inhabited jsval := populate JUndefined.

(** An object is a finite map from property names to values; [o !!! k] is
    the property read [o.k], [<[k:=v]> o] the assignment [o.k = v]. *)
Abbreviation obj := (gmap string jsval).

(** JavaScript truthiness: [if (v)], [v || d], [!v]. *)
Definition truthy (v : jsval) : bool :=
  match v with
  | JStr s => negb (String.eqb s "")
  | JNull | JUndefined => false
  end.

(** [a !== b] *)
Definition strict_neq (a b : jsval) : bool := bool_decide (a ≠ b).

(** [p?.k] for a [p] that may be [undefined] or [null]. *)
Definition opt_chain (p : option obj) (k : string) : jsval :=
  match p with
  | Some o => o !!! k
  | None => JUndefined
  end.

(** A value as a JSX child: [null] and [undefined] render nothing. *)
Definition jsx_text (v : jsval) : string :=
  match v with
  | JStr s => s
  | JNull | JUndefined => ""
  end.

(** A string value inside a template literal. *)
Definition template (v : jsval) : string :=
  match v with
  | JStr s => s
  | JNull => "null"
  | JUndefined => "undefined"
  end.

(** ** Errors, sessions, responses *)

Record Error : Type := mkError { message : string }.

#[global] Instance Error_eq_dec : EqDecision Error.
Proof. solve_decision. Defined.

(** Of the session only [session.user.id] is read. *)
Record Session : Type := mkSession { user_id : string }.

#[global] Instance Session_eq_dec : EqDecision Session.
Proof. solve_decision. Defined.

(** The [{ data, error }] answer of the Supabase client. *)
Record Response (T : Type) : Type := mkResponse {
  data : T;
  error : option Error
}.
Arguments mkResponse {T} _ _.
Arguments data {T} _.
Arguments error {T} _.

Record ToastMsg : Type := mkToast {
  title : string;
  description : string;
  variant : option string
}.

#[global] Instance ToastMsg_eq_dec : EqDecision ToastMsg.
Proof. solve_decision. Defined.

(** ** Commands *)

Inductive cmd : Type -> Type :=
| GetSession : cmd (option Session)
| SelectProfile (id : string) : cmd (Response (option obj))
| SelectProducts (uid : string) : cmd (Response (option (list obj)))
| SelectLocations : cmd (Response (option (list obj)))
| RpcCanUpdateBasicInfo (profile_id : string) : cmd (Response (option bool))
| UpdateProfile (values : obj) (id : string) : cmd (Response unit)
| NowISOString : cmd string
| LocationOrigin : cmd string
| ClipboardWriteText (s : string) : cmd unit
| Toast (t : ToastMsg) : cmd unit
| ConsoleError (msg : string) : cmd unit
| WindowPrompt (msg dflt : string) : cmd (option string)
| FormGetValues : cmd obj
| FormSetValue (k : string) (v : jsval) : cmd unit
| Mutate (values : obj) : cmd unit
| SetCurrentTargetSrc (src : string) : cmd unit
| SetIsPreviewMode (b : bool) : cmd unit
| InvalidateQueries (queryKey : string) : cmd unit
| SignOut : cmd unit
| Navigate (path : string) : cmd unit
| NavigateDelta (delta : Z) : cmd unit.

(** What a run leaves behind: each command with the answer it got. *)
Inductive event : Type :=
| EGetSession (r : option Session)
| ESelectProfile (id : string) (r : Response (option obj))
| ESelectProducts (uid : string) (r : Response (option (list obj)))
| ESelectLocations (r : Response (option (list obj)))
| ERpcCanUpdateBasicInfo (profile_id : string) (r : Response (option bool))
| EUpdateProfile (values : obj) (id : string) (r : Response unit)
| ENowISOString (t : string)
| ELocationOrigin (o : string)
| EClipboardWriteText (s : string)
| EToast (t : ToastMsg)
| EConsoleError (msg : string)
| EWindowPrompt (msg dflt : string) (r : option string)
| EFormGetValues (r : obj)
| EFormSetValue (k : string) (v : jsval)
| EMutate (values : obj)
| ESetCurrentTargetSrc (src : string)
| ESetIsPreviewMode (b : bool)
| EInvalidateQueries (queryKey : string)
| ESignOut
| ENavigate (path : string)
| ENavigateDelta (delta : Z).

Definition log {X : Type} (c : cmd X) : X -> event :=
  match c in cmd X return X -> event with
  | GetSession => EGetSession
  | SelectProfile id => ESelectProfile id
  | SelectProducts uid => ESelectProducts uid
  | SelectLocations => ESelectLocations
  | RpcCanUpdateBasicInfo id => ERpcCanUpdateBasicInfo id
  | UpdateProfile values id => EUpdateProfile values id
  | NowISOString => ENowISOString
  | LocationOrigin => ELocationOrigin
  | ClipboardWriteText s => fun _ => EClipboardWriteText s
  | Toast t => fun _ => EToast t
  | ConsoleError msg => fun _ => EConsoleError msg
  | WindowPrompt msg dflt => EWindowPrompt msg dflt
  | FormGetValues => EFormGetValues
  | FormSetValue k v => fun _ => EFormSetValue k v
  | Mutate values => fun _ => EMutate values
  | SetCurrentTargetSrc src => fun _ => ESetCurrentTargetSrc src
  | SetIsPreviewMode b => fun _ => ESetIsPreviewMode b
  | InvalidateQueries key => fun _ => EInvalidateQueries key
  | SignOut => fun _ => ESignOut
  | Navigate path => fun _ => ENavigate path
  | NavigateDelta delta => fun _ => ENavigateDelta delta
  end.

(** ** Programs *)

Inductive prog (A : Type) : Type :=
| Ret (a : A)
| Throw (e : Error)
| Do {X : Type} (c : cmd X) (k : X -> prog A).
Arguments Ret {A} _.
Arguments Throw {A} _.
Arguments Do {A X} _ _.

Fixpoint bind {A B : Type} (p : prog A) (f : A -> prog B) : prog B :=
  match p with
  | Ret a => f a
  | Throw e => Throw e
  | Do c k => Do c (fun x => bind (k x) f)
  end.

(** [attempt p] runs [p] and hands its outcome, value or error, to the
    caller: what the mutation library does around [mutationFn]. *)
Fixpoint attempt {A : Type} (p : prog A) : prog (A + Error) :=
  match p with
  | Ret a => Ret (inl a)
  | Throw e => Ret (inr e)
  | Do c k => Do c (fun x => attempt (k x))
  end.

Declare Scope prog_scope.
Delimit Scope prog_scope with prog.
Notation "'await' x ← c ; k" := (Do c (fun x => k))
  (at level 10, x pattern, c at level 100, k at level 200,
   format "'[v' 'await'  x  ←  c ; '/' k ']'") : prog_scope.
Notation "'call' c ; k" := (Do c (fun _ => k))
  (at level 10, c at level 100, k at level 200,
   format "'[v' 'call'  c ; '/' k ']'") : prog_scope.
Open Scope prog_scope.

(** ** The world a program runs against *)

(** The answers of the backend are left unconstrained; the table of
    profile rows changes only through a write that the backend accepts. *)
Record world : Type := mkWorld {
  w_session : option Session;
  w_select_profile : string -> Response (option obj);
  w_select_products : string -> Response (option (list obj));
  w_select_locations : Response (option (list obj));
  w_can_update_basic_info : string -> Response (option bool);
  w_update_error : obj -> string -> option Error;
  w_profiles : gmap string obj;
  w_now : string;
  w_origin : string;
  w_prompt : option string;
  w_form : obj;
  w_clipboard : option string;
  w_target_src : string;
  w_isPreviewMode : bool
}.

Definition set_profiles (t : gmap string obj) (w : world) : world :=
  mkWorld (w_session w) (w_select_profile w) (w_select_products w)
    (w_select_locations w) (w_can_update_basic_info w) (w_update_error w)
    t (w_now w) (w_origin w) (w_prompt w) (w_form w) (w_clipboard w)
    (w_target_src w) (w_isPreviewMode w).

Definition set_form (f : obj) (w : world) : world :=
  mkWorld (w_session w) (w_select_profile w) (w_select_products w)
    (w_select_locations w) (w_can_update_basic_info w) (w_update_error w)
    (w_profiles w) (w_now w) (w_origin w) (w_prompt w) f (w_clipboard w)
    (w_target_src w) (w_isPreviewMode w).

Definition set_clipboard (s : string) (w : world) : world :=
  mkWorld (w_session w) (w_select_profile w) (w_select_products w)
    (w_select_locations w) (w_can_update_basic_info w) (w_update_error w)
    (w_profiles w) (w_now w) (w_origin w) (w_prompt w) (w_form w) (Some s)
    (w_target_src w) (w_isPreviewMode w).

Definition set_target_src (s : string) (w : world) : world :=
  mkWorld (w_session w) (w_select_profile w) (w_select_products w)
    (w_select_locations w) (w_can_update_basic_info w) (w_update_error w)
    (w_profiles w) (w_now w) (w_origin w) (w_prompt w) (w_form w)
    (w_clipboard w) s (w_isPreviewMode w).

Definition set_isPreviewMode (b : bool) (w : world) : world :=
  mkWorld (w_session w) (w_select_profile w) (w_select_products w)
    (w_select_locations w) (w_can_update_basic_info w) (w_update_error w)
    (w_profiles w) (w_now w) (w_origin w) (w_prompt w) (w_form w)
    (w_clipboard w) (w_target_src w) b.

(** [update(values).eq("id", id)]: the columns in [values] overwrite those
    of the row with that id, when there is one. *)
Definition apply_update (values : obj) (id : string)
    (t : gmap string obj) : gmap string obj :=
  match t !! id with
  | Some row => <[id := values ∪ row]> t
  | None => t
  end.

Definition handle {X : Type} (c : cmd X) (w : world) : X * world :=
  match c in cmd X return X * world with
  | GetSession => (w_session w, w)
  | SelectProfile id => (w_select_profile w id, w)
  | SelectProducts uid => (w_select_products w uid, w)
  | SelectLocations => (w_select_locations w, w)
  | RpcCanUpdateBasicInfo id => (w_can_update_basic_info w id, w)
  | UpdateProfile values id =>
      match w_update_error w values id with
      | Some e => (mkResponse tt (Some e), w)
      | None =>
          (mkResponse tt None,
           set_profiles (apply_update values id (w_profiles w)) w)
      end
  | NowISOString => (w_now w, w)
  | LocationOrigin => (w_origin w, w)
  | ClipboardWriteText s => (tt, set_clipboard s w)
  | Toast _ => (tt, w)
  | ConsoleError _ => (tt, w)
  | WindowPrompt _ _ => (w_prompt w, w)
  | FormGetValues => (w_form w, w)
  | FormSetValue k v => (tt, set_form (<[k := v]> (w_form w)) w)
  | Mutate _ => (tt, w)
  | SetCurrentTargetSrc src => (tt, set_target_src src w)
  | SetIsPreviewMode b => (tt, set_isPreviewMode b w)
  | InvalidateQueries _ => (tt, w)
  | SignOut => (tt, w)
  | Navigate _ => (tt, w)
  | NavigateDelta _ => (tt, w)
  end.

Inductive outcome (A : Type) : Type :=
| Returned (a : A)
| Threw (e : Error).
Arguments Returned {A} _.
Arguments Threw {A} _.

Record result (A : Type) : Type := mkResult {
  res_outcome : outcome A;
  res_world : world;
  res_trace : list event
}.
Arguments mkResult {A} _ _ _.
Arguments res_outcome {A} _.
Arguments res_world {A} _.
Arguments res_trace {A} _.

Fixpoint run {A : Type} (p : prog A) (w : world) : result A :=
  match p with
  | Ret a => mkResult (Returned a) w []
  | Throw e => mkResult (Threw e) w []
  | Do c k =>
      let '(x, w1) := handle c w in
      let r := run (k x) w1 in
      mkResult (res_outcome r) (res_world r) (log c x :: res_trace r)
  end.

(** ** The component's functions *)

Definition defaultAvatarImage : string := "/placeholder.svg".
Definition defaultCoverImage : string := "/placeholder.svg".

Definition not_authenticated : Error := mkError "Não autenticado".

(** The [ReferenceError] of a name that is declared nowhere. *)
Definition not_defined (name : string) : Error :=
  mkError (name ++ " is not defined").

Definition must_wait_30_days : Error :=
  mkError "Você só pode alterar seu @ ou telefone após 30 dias da última atualização.".

Section Profile.

(** The link helper is called by the component and defined elsewhere. *)
Variable convertDropboxUrl : string -> string.

(** The helper is only ever called on a truthy link, which is a string. *)
Definition js_convertDropboxUrl (v : jsval) : jsval :=
  match v with
  | JStr s => JStr (convertDropboxUrl s)
  | JNull | JUndefined => v
  end.

(** *** Loaders (the three [queryFn]s) *)

Definition profile_queryFn : prog (option obj) :=
  await session ← GetSession;
  match session with
  | None => Throw not_authenticated
  | Some session =>
      await r ← SelectProfile (user_id session);
      match error r with
      | Some e => Throw e
      | None =>
          match data r with
          | Some d =>
              let d :=
                if truthy (d !!! "avatar_url")
                then <["avatar_url" := js_convertDropboxUrl (d !!! "avatar_url")]> d
                else d in
              let d :=
                if truthy (d !!! "cover_url")
                then <["cover_url" := js_convertDropboxUrl (d !!! "cover_url")]> d
                else d in
              Ret (Some d)
          | None => Ret None
          end
      end
  end.

Definition userProducts_queryFn : prog (list obj) :=
  await session ← GetSession;
  match session with
  | None => Ret []
  | Some session =>
      await r ← SelectProducts (user_id session);
      Ret (match data r with Some d => d | None => [] end)
  end.

Definition locations_queryFn : prog (list obj) :=
  await r ← SelectLocations;
  Ret (match data r with Some d => d | None => [] end).

(** *** Mutator *)

(** [!canUpdate] *)
Definition not_canUpdate (canUpdate : option bool) : bool :=
  match canUpdate with
  | Some b => negb b
  | None => true
  end.

Definition mutationFn (profile : option obj) (values : obj) : prog unit :=
  await session ← GetSession;
  match session with
  | None => Throw not_authenticated
  | Some session =>
      let values :=
        if truthy (values !!! "avatar_url")
        then <["avatar_url" := js_convertDropboxUrl (values !!! "avatar_url")]> values
        else values in
      let values :=
        if truthy (values !!! "cover_url")
        then <["cover_url" := js_convertDropboxUrl (values !!! "cover_url")]> values
        else values in
      let isUpdatingRestricted :=
        strict_neq (values !!! "username") (opt_chain profile "username")
        || strict_neq (values !!! "phone") (opt_chain profile "phone") in
      bind
        (if isUpdatingRestricted
         then
           await r ← RpcCanUpdateBasicInfo (user_id session);
           match error r with
           | Some checkError => Throw checkError
           | None =>
               if not_canUpdate (data r)
               then Throw must_wait_30_days
               else
                 await now ← NowISOString;
                 Ret (<["basic_info_updated_at" := JStr now]> values)
           end
         else Ret values)
        (fun values =>
           await r ← UpdateProfile values (user_id session);
           match error r with
           | Some e => Throw e
           | None => Ret tt
           end)
  end.

Definition onSuccess : prog unit :=
  call InvalidateQueries "profile";
  call Toast (mkToast "Perfil atualizado"
                "Suas informações foram atualizadas com sucesso" None);
  Throw (not_defined "setShowSettings").

Definition onError (e : Error) : prog unit :=
  call Toast (mkToast "Erro ao atualizar perfil" (message e)
                (Some "destructive"));
  Ret tt.

(** What the mutation library runs for one [mutateAsync(values)]: the
    mutator and then [onSuccess]; when either of them throws, [onError]
    with the error, and the error again. *)
Definition mutateAsync (profile : option obj) (values : obj) : prog unit :=
  bind (attempt (bind (mutationFn profile values) (fun _ => onSuccess)))
    (fun r =>
       match r with
       | inl _ => Ret tt
       | inr e => bind (onError e) (fun _ => Throw e)
       end).

Definition handleSubmit (profile : option obj) (values : obj) : prog unit :=
  mutateAsync profile values.

(** *** Event handlers *)

Definition or_empty (v : jsval) : string :=
  if truthy v then template v else "".

Definition handleCoverImageClick (profile : option obj) : prog unit :=
  await dialog ← WindowPrompt "Cole aqui o link do Dropbox para a imagem de capa:"
                   (or_empty (opt_chain profile "cover_url"));
  match dialog with
  | Some dialog =>
      await form_values ← FormGetValues;
      let values := <["cover_url" := JStr dialog]> form_values in
      call Mutate values;
      Ret tt
  | None => Ret tt
  end.

Definition handleAvatarImageClick (profile : option obj) : prog unit :=
  await dialog ← WindowPrompt "Cole aqui o link do Dropbox para a foto de perfil:"
                   (or_empty (opt_chain profile "avatar_url"));
  match dialog with
  | Some dialog =>
      call FormSetValue "avatar_url" (JStr dialog);
      await values ← FormGetValues;
      call Mutate values;
      Ret tt
  | None => Ret tt
  end.

Definition handleImageError : prog unit :=
  call ConsoleError "Erro ao carregar a imagem";
  call Toast (mkToast "Erro ao carregar a imagem"
                "Verifique se o link do Dropbox está correto"
                (Some "destructive"));
  Throw (not_defined "setIsLoadingImage").

Definition copyProfileLink (profile : option obj) : prog unit :=
  if truthy (opt_chain profile "username")
  then
    await origin ← LocationOrigin;
    call ClipboardWriteText
      (origin ++ "/perfil/" ++ template (opt_chain profile "username"));
    call Toast (mkToast "Link copiado!"
                  "O link do seu perfil foi copiado para a área de transferência."
                  None);
    Ret tt
  else Ret tt.

Definition handleLogout : prog unit :=
  call SignOut;
  call Navigate "/login";
  Ret tt.

(** The [onError] closures of the two [<img>] elements. *)
Definition cover_onError : prog unit :=
  call SetCurrentTargetSrc defaultCoverImage;
  Ret tt.

Definition avatar_onError : prog unit :=
  call SetCurrentTargetSrc defaultAvatarImage;
  Ret tt.

(** *** The rendered page *)

(** The closures and functions that the returned element tree attaches to
    its elements. *)
Inductive handler : Type :=
| h_navigate_back
| h_handleLogout
| h_handleAvatarImageClick
| h_handleCoverImageClick
| h_handleSubmit
| h_copyProfileLink
| h_setIsPreviewMode (b : bool)
| h_cover_onError
| h_avatar_onError.

#[global] Instance handler_eq_dec : EqDecision handler.
Proof. solve_decision. Defined.

(** Running a handler; [values] is what the edit dialog submits and is
    read by [handleSubmit] alone. *)
Definition invoke (profile : option obj) (h : handler) (values : obj)
    : prog unit :=
  match h with
  | h_navigate_back => call NavigateDelta (-1); Ret tt
  | h_handleLogout => handleLogout
  | h_handleAvatarImageClick => handleAvatarImageClick profile
  | h_handleCoverImageClick => handleCoverImageClick profile
  | h_handleSubmit => handleSubmit profile values
  | h_copyProfileLink => copyProfileLink profile
  | h_setIsPreviewMode b => call SetIsPreviewMode b; Ret tt
  | h_cover_onError => cover_onError
  | h_avatar_onError => avatar_onError
  end.

(** The elements of the returned tree, in document order; class names
    (the only use of the theme) are left out. *)
Inductive element : Type :=
| Paragraph (text : string)
| Heading (text : jsval)
| IconButton (icon : string) (onClick : handler)
| Img (src : jsval) (alt : string) (onError : handler)
| EditPhotosButton (onAvatarClick onCoverClick : handler)
| EditProfileDialog (trigger : string) (onSubmit : handler)
| DropdownMenuTrigger (icon : string)
| DropdownMenuItem (label : string) (onClick : handler)
| Button (label : string) (onClick : handler)
| ProfileTabs
| BottomNav.


Record view : Type := mkView {
  isProfileLoading : bool;
  isPreviewMode : bool;
  profile : option obj
}.

(** The column of buttons next to the name: [!isPreviewMode ? ... : ...] *)
Definition action_column (isPreviewMode : bool) : list element :=
  if negb isPreviewMode
  then [ EditPhotosButton h_handleAvatarImageClick h_handleCoverImageClick;
         EditProfileDialog "Editar perfil" h_handleSubmit;
         DropdownMenuTrigger "Settings";
         DropdownMenuItem "Copiar link do perfil" h_copyProfileLink;
         DropdownMenuItem "Ver como" (h_setIsPreviewMode true) ]
  else [ Button "Sair do modo preview" (h_setIsPreviewMode false) ].

Definition render (v : view) : list element :=
  if isProfileLoading v
  then [ Paragraph "Carregando..." ]
  else
    [ IconButton "ArrowLeft" h_navigate_back;
      Heading (opt_chain (profile v) "full_name");
      IconButton "LogOut" h_handleLogout ]
    ++ [ if truthy (opt_chain (profile v) "cover_url")
         then Img (opt_chain (profile v) "cover_url") "Capa" h_cover_onError
         else Paragraph "Sem Capa de Perfil" ]
    ++ [ if truthy (opt_chain (profile v) "avatar_url")
         then Img (opt_chain (profile v) "avatar_url") "Avatar" h_avatar_onError
         else Paragraph "Sem foto de perfil" ]
    ++ [ Heading (opt_chain (profile v) "full_name");
         Paragraph ("@" ++ jsx_text (opt_chain (profile v) "username")) ]
    ++ (if truthy (opt_chain (profile v) "status")
        then [ Paragraph (jsx_text (opt_chain (profile v) "status") ++ " 👍") ]
        else [])
    ++ (if truthy (opt_chain (profile v) "city")
        then [ Paragraph ("Mora em " ++ jsx_text (opt_chain (profile v) "city")) ]
        else [])
    ++ action_column (isPreviewMode v)
    ++ [ ProfileTabs; BottomNav ].


(** *** The statements of the specification *)

(** Follows the specification's words, not the source: a media link that
    is present and non-empty is rewritten by the link helper, an empty,
    [null] or missing one is left as it is. *)
Definition normalize_link (v : jsval) : jsval :=
  if truthy v then js_convertDropboxUrl v else v.

(** Follows the specification's words, not the source: the two media
    links of an object are normalized, every other property is kept. *)
Definition normalize_media_spec (o : obj) : obj :=
  map_imap
    (fun k v =>
       Some (if bool_decide (k = "avatar_url" ∨ k = "cover_url")
             then normalize_link v
             else v))
    o.

End Profile.





(** ** Reading a trace *)

Definition clipboard_writes (t : list event) : list string :=
  omap (fun e => match e with EClipboardWriteText s => Some s | _ => None end) t.

Definition mutations (t : list event) : list obj :=
  omap (fun e => match e with EMutate v => Some v | _ => None end) t.

Definition toasts (t : list event) : list ToastMsg :=
  omap (fun e => match e with EToast m => Some m | _ => None end) t.

Definition is_backend_read (e : event) : bool :=
  match e with
  | ESelectProfile _ _ | ESelectProducts _ _ | ESelectLocations _ => true
  | _ => false
  end.

(** [never bad p]: whatever it is answered, [p] issues no command whose
    event is [bad]. *)
Fixpoint never {A : Type} (bad : event -> Prop) (p : prog A) : Prop :=
  match p with
  | Ret _ | Throw _ => True
  | Do c k => (∀ x, ¬ bad (log c x)) ∧ ∀ x, never bad (k x)
  end.


(** The toast of [handleImageError]. *)
Definition image_error_toast : ToastMsg :=
  mkToast "Erro ao carregar a imagem"
    "Verifique se o link do Dropbox está correto" (Some "destructive").

Definition raises_image_error_toast (e : event) : Prop :=
  e = EToast image_error_toast.

(** ** Sample inputs *)

(** One possible link helper, for the concrete instances below. *)
Definition raw_link (s : string) : string := s ++ "?raw=1".

Definition ana : obj :=
  {[ "username" := JStr "ana"; "phone" := JStr "111";
     "avatar_url" := JStr "https://www.dropbox.com/a.png";
     "cover_url" := JStr "" ]}.

(** [ana] with another username, and with another phone. *)
Definition bia : obj := <["username" := JStr "bia"]> ana.
Definition ana_new_phone : obj := <["phone" := JStr "222"]> ana.

Definition no_products : Response (option (list obj)) := mkResponse None None.

(** A signed-in world whose eligibility check answers [canUpdate] and
    whose user answers the prompt with [prompt]. *)
Definition signed_in (canUpdate : bool) (prompt : option string) : world :=
  mkWorld (Some (mkSession "u1"))
    (fun _ => mkResponse (Some ana) None)
    (fun _ => no_products) no_products
    (fun _ => mkResponse (Some canUpdate) None)
    (fun _ _ => None)
    {[ "u1" := ana ]}
    "2024-05-01T12:00:00.000Z" "https://x.test" prompt ana None
    "https://www.dropbox.com/a.png" false.

Definition signed_out : world :=
  mkWorld None
    (fun _ => mkResponse (Some ana) None)
    (fun _ => no_products) no_products
    (fun _ => mkResponse (Some true) None)
    (fun _ _ => None)
    {[ "u1" := ana ]}
    "2024-05-01T12:00:00.000Z" "https://x.test" None ana None
    "https://www.dropbox.com/a.png" false.


(** ** The form reset of the profile effect *)

Section Form.

(** [format(new Date(d), "yyyy-MM-dd")], from the date library. *)
Variable format_yyyy_MM_dd : string -> string.

(** The object handed to [form.reset]: every field is [profile.field || ""],
    the birth date is formatted when there is one. *)
Definition form_reset_values (profile : obj) : obj :=
  <["full_name" := JStr (or_empty (profile !!! "full_name"))]>
  {[ "email" := JStr (or_empty (profile !!! "email"));
     "phone" := JStr (or_empty (profile !!! "phone"));
     "birth_date" :=
       JStr (if truthy (profile !!! "birth_date")
             then format_yyyy_MM_dd (template (profile !!! "birth_date"))
             else "");
     "street" := JStr (or_empty (profile !!! "street"));
     "house_number" := JStr (or_empty (profile !!! "house_number"));
     "city" := JStr (or_empty (profile !!! "city"));
     "postal_code" := JStr (or_empty (profile !!! "postal_code"));
     "avatar_url" := JStr (or_empty (profile !!! "avatar_url"));
     "cover_url" := JStr (or_empty (profile !!! "cover_url"));
     "username" := JStr (or_empty (profile !!! "username"));
     "bio" := JStr (or_empty (profile !!! "bio"));
     "website" := JStr (or_empty (profile !!! "website"));
     "status" := JStr (or_empty (profile !!! "status")) ]}.

(** The effect on the profile: [if (profile) form.reset({...})]. *)
Definition profile_effect (profile : option obj) (w : world) : world :=
  match profile with
  | Some p => set_form (form_reset_values p) w
  | None => w
  end.

End Form.

(** The fields of the form. *)
Definition form_fields : list string :=
  [ "full_name"; "email"; "phone"; "birth_date"; "street"; "house_number";
    "city"; "postal_code"; "avatar_url"; "cover_url"; "username"; "bio";
    "website"; "status" ].

(** ** More readers and sample inputs *)

Definition writes (t : list event) : list (obj * string) :=
  omap (fun e => match e with EUpdateProfile v id _ => Some (v, id) | _ => None end) t.

Definition invalidations (t : list event) : list string :=
  omap (fun e => match e with EInvalidateQueries k => Some k | _ => None end) t.

(** The two toasts of the mutation. *)
Definition profile_updated_toast : ToastMsg :=
  mkToast "Perfil atualizado" "Suas informações foram atualizadas com sucesso" None.

Definition update_failed_toast (e : Error) : ToastMsg :=
  mkToast "Erro ao atualizar perfil" (message e) (Some "destructive").

(** The first ten characters of an ISO date, as a sample formatter. *)
Definition iso_day (s : string) : string := String.substring 0 10 s.

(** A profile row whose phone was never filled in. *)
Definition caio : obj :=
  {[ "username" := JStr "caio"; "phone" := JNull;
     "avatar_url" := JNull; "cover_url" := JNull ]}.

Definition network_down : Error := mkError "network down".

(** A signed-in world with a chosen answer of the eligibility check, a
    chosen error of the write and of the reads, and a chosen answer to the
    prompt. *)
Definition backend (check : Response (option bool)) (write_error : option Error)
    (read_error : option Error) (prompt : option string) : world :=
  mkWorld (Some (mkSession "u1"))
    (fun _ => mkResponse (match read_error with Some _ => None | None => Some ana end)
                read_error)
    (fun _ => mkResponse (Some [ana]) read_error)
    (mkResponse (Some [ana; caio]) None)
    (fun _ => check)
    (fun _ _ => write_error)
    {[ "u1" := ana ]}
    "2024-05-01T12:00:00.000Z" "https://x.test" prompt ana None
    "https://www.dropbox.com/a.png" false.

(** ** Property reads *)

Lemma prop_Some (o : obj) (k : string) (v : jsval) :
  o !! k = Some v → o !!! k = v.
Proof. intros E. by rewrite lookup_total_alt, E. Qed.

Lemma prop_None (o : obj) (k : string) :
  o !! k = None → o !!! k = JUndefined.
Proof. intros E. by rewrite lookup_total_alt, E. Qed.

Lemma truthy_JStr (s : string) : s ≠ "" → truthy (JStr s) = true.
Proof. intros Hs. cbn [truthy]. by apply negb_true_iff, String.eqb_neq. Qed.

(** [values.username !== profile?.username || values.phone !== profile?.phone] *)
Lemma restricted_true (profile : option obj) (values : obj) :
  values !!! "username" ≠ opt_chain profile "username"
  ∨ values !!! "phone" ≠ opt_chain profile "phone" →
  strict_neq (values !!! "username") (opt_chain profile "username")
  || strict_neq (values !!! "phone") (opt_chain profile "phone") = true.
Proof.
  unfold strict_neq. intros [H|H].
  - by rewrite (bool_decide_eq_true_2 _ H).
  - rewrite (bool_decide_eq_true_2 _ H). apply orb_true_r.
Qed.

(** ** Running programs: equations and frame lemmas *)

Lemma run_Ret {A : Type} (a : A) (w : world) :
  run (Ret a) w = mkResult (Returned a) w [].
Proof. reflexivity. Qed.

Lemma run_Throw {A : Type} (e : Error) (w : world) :
  run (@Throw A e) w = mkResult (Threw e) w [].
Proof. reflexivity. Qed.

Lemma run_Do {A X : Type} (c : cmd X) (k : X -> prog A) (w : world) :
  run (Do c k) w =
  mkResult (res_outcome (run (k (handle c w).1) (handle c w).2))
           (res_world (run (k (handle c w).1) (handle c w).2))
           (log c (handle c w).1 :: res_trace (run (k (handle c w).1) (handle c w).2)).
Proof. cbn [run]. by destruct (handle c w). Qed.

Lemma run_bind {A B : Type} (p : prog A) (f : A -> prog B) (w : world) :
  run (bind p f) w =
  match res_outcome (run p w) with
  | Returned a =>
      mkResult (res_outcome (run (f a) (res_world (run p w))))
               (res_world (run (f a) (res_world (run p w))))
               (res_trace (run p w) ++ res_trace (run (f a) (res_world (run p w))))
  | Threw e => mkResult (Threw e) (res_world (run p w)) (res_trace (run p w))
  end.
Proof.
  revert w. induction p as [a|e|X c k IH]; intros w.
  - cbn [bind run res_outcome res_world res_trace app]. by destruct (run (f a) w).
  - reflexivity.
  - cbn [bind]. rewrite !run_Do. cbn [res_outcome res_world res_trace].
    rewrite IH. by destruct (res_outcome (run (k _) _)).
Qed.

Lemma run_attempt {A : Type} (p : prog A) (w : world) :
  run (attempt p) w =
  mkResult
    (Returned match res_outcome (run p w) with
              | Returned a => inl a
              | Threw e => inr e
              end)
    (res_world (run p w)) (res_trace (run p w)).
Proof.
  revert w. induction p as [a|e|X c k IH]; intros w; try reflexivity.
  cbn [attempt]. rewrite !run_Do. cbn [res_outcome res_world res_trace].
  by rewrite IH.
Qed.

(** Symbolic execution, one command at a time. *)
Ltac steps :=
  repeat first
    [ rewrite run_bind | rewrite run_Do | rewrite run_Ret | rewrite run_Throw
    | progress cbn [handle log fst snd res_outcome res_world res_trace app
                    error data] ].

(** Membership of an event in an explicit trace. *)
Ltac trace_inv H :=
  repeat (apply elem_of_cons in H as [H|H]);
  try (apply elem_of_nil in H; contradiction);
  try discriminate H.

Ltac frame_step IH Hno :=
  rewrite IH; [reflexivity | intros; intros Hin; eapply Hno; right; exact Hin].

(** The table of profile rows changes only through a write. *)
Lemma run_profiles_frame {A : Type} (p : prog A) (w : world) :
  (∀ v id r, EUpdateProfile v id r ∉ res_trace (run p w)) →
  w_profiles (res_world (run p w)) = w_profiles w.
Proof.
  revert w. induction p as [a|e|X c k IH]; intros w Hno; try reflexivity.
  rewrite run_Do in *. cbn [res_world res_trace] in *.
  destruct c; cbn [handle log fst snd] in *;
    try frame_step IH Hno.
  exfalso. eapply Hno. left.
Qed.


(** What a program never issues is in none of its traces. *)
Lemma never_trace {A : Type} (bad : event -> Prop) (p : prog A) (w : world) :
  never bad p → ∀ e, e ∈ res_trace (run p w) → ¬ bad e.
Proof.
  revert w. induction p as [a|e|X c k IH]; intros w Hp ev Hin;
    try (by apply elem_of_nil in Hin).
  destruct Hp as [Hc Hk]. rewrite run_Do in Hin. cbn [res_trace] in Hin.
  apply elem_of_cons in Hin as [->|Hin]; [apply Hc|].
  eapply IH; [apply Hk | exact Hin].
Qed.

Lemma never_bind {A B : Type} (bad : event -> Prop)
    (p : prog A) (f : A -> prog B) :
  never bad p → (∀ a, never bad (f a)) → never bad (bind p f).
Proof.
  intros Hp Hf. induction p as [a|e|X c k IH]; cbn [bind never].
  - apply Hf.
  - exact I.
  - destruct Hp as [Hc Hk]. split; [exact Hc|]. intros x. by apply IH.
Qed.

Lemma never_attempt {A : Type} (bad : event -> Prop) (p : prog A) :
  never bad p → never bad (attempt p).
Proof.
  induction p as [a|e|X c k IH]; cbn [attempt never]; try done.
  intros [Hc Hk]. split; [exact Hc|]. intros x. by apply IH.
Qed.


(** Walks a program text and refutes each command's event. *)
Ltac never_by refute :=
  repeat first
    [ exact I
    | progress cbn [never log]
    | apply never_bind
    | apply never_attempt
    | split
    | refute
    | intros ?
    | case_match ].


Ltac not_image_error_toast :=
  idtac;
  match goal with
  | |- ¬ raises_image_error_toast _ =>
      unfold raises_image_error_toast, image_error_toast; discriminate
  end.

(** ** The media links *)

Section Media.

Variable convertDropboxUrl : string -> string.

Lemma normalize_link_cases (v : jsval) :
  normalize_link convertDropboxUrl v =
  match v with
  | JStr s => if String.eqb s "" then JStr "" else JStr (convertDropboxUrl s)
  | JNull => JNull
  | JUndefined => JUndefined
  end.
Proof.
  destruct v as [| |s]; try reflexivity.
  unfold normalize_link. cbn [truthy js_convertDropboxUrl].
  destruct (String.eqb_spec s ""); by subst.
Qed.

(** One guarded assignment [if (o.k) o.k = convertDropboxUrl(o.k)]. *)
Lemma assign_if_truthy_lookup (k : string) (o : obj) (j : string) :
  (if truthy (o !!! k)
   then <[k := js_convertDropboxUrl convertDropboxUrl (o !!! k)]> o
   else o) !! j
  = (fun v => if bool_decide (j = k)
              then normalize_link convertDropboxUrl v else v) <$> o !! j.
Proof.
  unfold normalize_link.
  destruct (decide (j = k)) as [->|Hne].
  - rewrite bool_decide_eq_true_2 by done.
    destruct (o !! k) as [v|] eqn:E.
    + rewrite (prop_Some _ _ _ E). cbn [fmap option_fmap option_map].
      destruct (truthy v); [by rewrite lookup_insert_eq | done].
    + rewrite (prop_None _ _ E). cbn. by rewrite E.
  - rewrite bool_decide_eq_false_2 by done.
    destruct (truthy _).
    + rewrite lookup_insert_ne by done. by destruct (o !! j).
    + by destruct (o !! j).
Qed.

(** The two guarded assignments of the source, one after the other, are
    the normalization the specification describes. *)
Lemma normalize_inline (o : obj) :
  (let d := if truthy (o !!! "avatar_url")
            then <["avatar_url" :=
                     js_convertDropboxUrl convertDropboxUrl (o !!! "avatar_url")]> o
            else o in
   if truthy (d !!! "cover_url")
   then <["cover_url" :=
            js_convertDropboxUrl convertDropboxUrl (d !!! "cover_url")]> d
   else d)
  = normalize_media_spec convertDropboxUrl o.
Proof.
  cbv zeta. apply map_eq. intros j.
  rewrite assign_if_truthy_lookup, assign_if_truthy_lookup.
  unfold normalize_media_spec. rewrite map_lookup_imap.
  destruct (o !! j) as [v|]; [|reflexivity]. cbn.
  f_equal.
  destruct (decide (j = "avatar_url")) as [->|Ha].
  - reflexivity.
  - rewrite (bool_decide_eq_false_2 (j = "avatar_url")) by done.
    destruct (decide (j = "cover_url")) as [->|Hc].
    + reflexivity.
    + rewrite !bool_decide_eq_false_2; [done| |done]. intros [?|?]; done.
Qed.

Lemma normalize_media (o : obj) (j : string) :
  j = "avatar_url" ∨ j = "cover_url" →
  normalize_media_spec convertDropboxUrl o !! j
  = normalize_link convertDropboxUrl <$> o !! j.
Proof.
  intros Hj. unfold normalize_media_spec. rewrite map_lookup_imap.
  destruct (o !! j) as [v|]; [|reflexivity]. cbn.
  by rewrite bool_decide_eq_true_2.
Qed.

Lemma normalize_other (o : obj) (j : string) :
  j ≠ "avatar_url" → j ≠ "cover_url" →
  normalize_media_spec convertDropboxUrl o !! j = o !! j.
Proof.
  intros Ha Hc. unfold normalize_media_spec. rewrite map_lookup_imap.
  destruct (o !! j) as [v|]; [|reflexivity]. cbn.
  rewrite bool_decide_eq_false_2; [done|]. intros [?|?]; done.
Qed.

Lemma normalize_other_total (o : obj) (j : string) :
  j ≠ "avatar_url" → j ≠ "cover_url" →
  normalize_media_spec convertDropboxUrl o !!! j = o !!! j.
Proof. intros Ha Hc. by rewrite !lookup_total_alt, normalize_other. Qed.

(** ** The runs of the loader and of the mutator, case by case *)

Lemma run_profile_queryFn (w : world) :
  run (profile_queryFn convertDropboxUrl) w =
  match w_session w with
  | None => mkResult (Threw not_authenticated) w [EGetSession None]
  | Some s =>
      let r := w_select_profile w (user_id s) in
      mkResult
        match error r with
        | Some e => Threw e
        | None => Returned (normalize_media_spec convertDropboxUrl <$> data r)
        end
        w [EGetSession (Some s); ESelectProfile (user_id s) r]
  end.
Proof.
  unfold profile_queryFn. rewrite run_Do. cbn [handle log fst snd].
  destruct (w_session w) as [s|]; [|reflexivity].
  cbv zeta. steps.
  destruct (w_select_profile w (user_id s)) as [[d|] [e|]]; steps;
    try reflexivity.
  by rewrite normalize_inline.
Qed.

Lemma run_mutationFn (profile : option obj) (values : obj) (w : world) :
  run (mutationFn convertDropboxUrl profile values) w =
  match w_session w with
  | None => mkResult (Threw not_authenticated) w [EGetSession None]
  | Some s =>
      let N := normalize_media_spec convertDropboxUrl values in
      let write (v : obj) (pre : list event) :=
        match w_update_error w v (user_id s) with
        | Some e =>
            mkResult (Threw e) w
              (pre ++ [EUpdateProfile v (user_id s) (mkResponse tt (Some e))])
        | None =>
            mkResult (Returned tt)
              (set_profiles (apply_update v (user_id s) (w_profiles w)) w)
              (pre ++ [EUpdateProfile v (user_id s) (mkResponse tt None)])
        end in
      if strict_neq (values !!! "username") (opt_chain profile "username")
         || strict_neq (values !!! "phone") (opt_chain profile "phone")
      then
        let r := w_can_update_basic_info w (user_id s) in
        match error r with
        | Some e =>
            mkResult (Threw e) w
              [EGetSession (Some s); ERpcCanUpdateBasicInfo (user_id s) r]
        | None =>
            if not_canUpdate (data r)
            then mkResult (Threw must_wait_30_days) w
                   [EGetSession (Some s); ERpcCanUpdateBasicInfo (user_id s) r]
            else write (<["basic_info_updated_at" := JStr (w_now w)]> N)
                   [EGetSession (Some s); ERpcCanUpdateBasicInfo (user_id s) r;
                    ENowISOString (w_now w)]
        end
      else write N [EGetSession (Some s)]
  end.
Proof.
  unfold mutationFn. rewrite run_Do. cbn [handle log fst snd].
  destruct (w_session w) as [s|]; [|reflexivity].
  rewrite normalize_inline, !normalize_other_total by done. cbv zeta.
  destruct (strict_neq _ _ || strict_neq _ _).
  - steps. destruct (error (w_can_update_basic_info w (user_id s))); [by steps|].
    destruct (not_canUpdate _); steps; [reflexivity|].
    destruct (w_update_error w _ (user_id s)); by steps.
  - steps. destruct (w_update_error w _ (user_id s)); by steps.
Qed.


Lemma invoke_never_image_error_toast (profile : option obj) (h : handler)
    (values : obj) :
  never raises_image_error_toast (invoke convertDropboxUrl profile h values).
Proof.
  destruct h;
    unfold invoke, handleLogout, handleAvatarImageClick, handleCoverImageClick,
      handleSubmit, mutateAsync, mutationFn, copyProfileLink, cover_onError,
      avatar_onError, onSuccess, onError;
    never_by not_image_error_toast.
Qed.

End Media.

(** ** Loaders *)

(** C4: without a session the profile loader throws the authentication
    error; it returns no data, asks the backend for nothing beyond the
    session, and leaves the world as it was. *)
Theorem profile_queryFn_no_session
    (convertDropboxUrl : string -> string) (w : world) :
  w_session w = None →
  run (profile_queryFn convertDropboxUrl) w
  = mkResult (Threw not_authenticated) w [EGetSession None]
  ∧ (∀ d, res_outcome (run (profile_queryFn convertDropboxUrl) w) ≠ Returned d)
  ∧ Forall (fun e => is_backend_read e = false)
      (res_trace (run (profile_queryFn convertDropboxUrl) w)).
Proof.
  intros Hs. rewrite run_profile_queryFn, Hs. cbn [res_outcome res_trace].
  split; [reflexivity|]. split; [discriminate|]. by repeat constructor.
Qed.

Lemma profile_queryFn_no_session_witness :
  w_session signed_out = None
  ∧ run (profile_queryFn raw_link) signed_out
    = mkResult (Threw not_authenticated) signed_out [EGetSession None].
Proof.
  split; [reflexivity|].
  apply (profile_queryFn_no_session raw_link signed_out). reflexivity.
Defined.

(** C9: the products loader returns the empty list when there is no
    session (without reading the backend) and when the backend answers
    [null]; it throws in no world at all. *)
Theorem userProducts_queryFn_empty (w : world) :
  (w_session w = None →
   run userProducts_queryFn w = mkResult (Returned []) w [EGetSession None])
  ∧ (∀ s, w_session w = Some s →
       data (w_select_products w (user_id s)) = None →
       res_outcome (run userProducts_queryFn w) = Returned [])
  ∧ (∀ e, res_outcome (run userProducts_queryFn w) ≠ Threw e).
Proof.
  unfold userProducts_queryFn. rewrite run_Do. cbn [handle log fst snd].
  destruct (w_session w) as [s|]; steps.
  - split; [discriminate|]. split; [|discriminate].
    intros s' [= <-] Hnull. by rewrite Hnull.
  - split; [reflexivity|]. split; discriminate.
Qed.

Lemma userProducts_queryFn_empty_witness :
  run userProducts_queryFn signed_out
  = mkResult (Returned []) signed_out [EGetSession None]
  ∧ res_outcome (run userProducts_queryFn (signed_in true None)) = Returned [].
Proof.
  split.
  - apply (userProducts_queryFn_empty signed_out). reflexivity.
  - apply (userProducts_queryFn_empty (signed_in true None)) with (mkSession "u1");
      reflexivity.
Defined.

(** ** Mutator *)

(** C1: with a session, when the submitted username differs from the
    cached one and the eligibility check of the backend answers [false],
    the mutator calls the check, throws the 30-day error and stops: the
    backend write is never called, and the world, with its table of
    profile rows, is what it was. *)
Theorem mutationFn_denied_keeps_profile
    (convertDropboxUrl : string -> string)
    (profile : option obj) (values : obj) (w : world) (s : Session) :
  w_session w = Some s →
  values !!! "username" ≠ opt_chain profile "username" →
  w_can_update_basic_info w (user_id s) = mkResponse (Some false) None →
  run (mutationFn convertDropboxUrl profile values) w
  = mkResult (Threw must_wait_30_days) w
      [EGetSession (Some s);
       ERpcCanUpdateBasicInfo (user_id s) (mkResponse (Some false) None)]
  ∧ (∀ v id r, EUpdateProfile v id r
       ∉ res_trace (run (mutationFn convertDropboxUrl profile values) w))
  ∧ w_profiles (res_world (run (mutationFn convertDropboxUrl profile values) w))
    = w_profiles w.
Proof.
  intros Hs Hname Hcheck.
  assert (Hrun : run (mutationFn convertDropboxUrl profile values) w
                 = mkResult (Threw must_wait_30_days) w
                     [EGetSession (Some s);
                      ERpcCanUpdateBasicInfo (user_id s)
                        (mkResponse (Some false) None)]).
  { rewrite run_mutationFn, Hs. cbv zeta.
    rewrite (restricted_true profile values (or_introl Hname)), Hcheck.
    reflexivity. }
  rewrite Hrun. cbn [res_trace res_world].
  split; [reflexivity|]. split; [|reflexivity].
  intros v id r H. trace_inv H.
Qed.

Lemma mutationFn_denied_keeps_profile_witness :
  w_session (signed_in false None) = Some (mkSession "u1")
  ∧ bia !!! "username" ≠ opt_chain (Some ana) "username"
  ∧ w_can_update_basic_info (signed_in false None) "u1"
    = mkResponse (Some false) None
  ∧ res_outcome (run (mutationFn raw_link (Some ana) bia) (signed_in false None))
    = Threw must_wait_30_days
  ∧ w_profiles
      (res_world (run (mutationFn raw_link (Some ana) bia) (signed_in false None)))
    = w_profiles (signed_in false None).
Proof.
  assert (H1 : bia !!! "username" ≠ opt_chain (Some ana) "username")
    by (vm_compute; discriminate).
  split; [reflexivity|]. split; [exact H1|]. split; [reflexivity|].
  destruct (mutationFn_denied_keeps_profile raw_link (Some ana) bia
              (signed_in false None) (mkSession "u1") eq_refl H1 eq_refl)
    as (Hrun & _ & Hp).
  split; [by rewrite Hrun | exact Hp].
Defined.

(** C2: when the submitted username and phone are the cached ones, the
    mutator never calls the eligibility check, never reads the clock, and
    any write it makes carries [basic_info_updated_at] as it was
    submitted. *)
Theorem mutationFn_unrestricted_no_check
    (convertDropboxUrl : string -> string)
    (profile : option obj) (values : obj) (w : world) :
  values !!! "username" = opt_chain profile "username" →
  values !!! "phone" = opt_chain profile "phone" →
  (∀ id r, ERpcCanUpdateBasicInfo id r
     ∉ res_trace (run (mutationFn convertDropboxUrl profile values) w))
  ∧ (∀ t, ENowISOString t
     ∉ res_trace (run (mutationFn convertDropboxUrl profile values) w))
  ∧ (∀ v id r,
       EUpdateProfile v id r
         ∈ res_trace (run (mutationFn convertDropboxUrl profile values) w) →
       v !! "basic_info_updated_at" = values !! "basic_info_updated_at").
Proof.
  intros Hname Hphone. rewrite run_mutationFn. cbv zeta.
  destruct (w_session w) as [s|].
  2:{ split; [|split]; [intros id r H|intros t H|intros v id r H]; trace_inv H. }
  unfold strict_neq. rewrite !bool_decide_eq_false_2 by (intros Hne; by apply Hne).
  cbn [orb].
  destruct (w_update_error w _ _); cbn [app];
    (split; [intros id r H; trace_inv H|]);
    (split; [intros t H; trace_inv H|]);
    intros v id r H; trace_inv H; injection H as -> _ _;
    by apply normalize_other.
Qed.

Lemma mutationFn_unrestricted_no_check_witness :
  ana !!! "username" = opt_chain (Some ana) "username"
  ∧ ana !!! "phone" = opt_chain (Some ana) "phone"
  ∧ (∀ id r, ERpcCanUpdateBasicInfo id r
       ∉ res_trace (run (mutationFn raw_link (Some ana) ana) (signed_in false None)))
  ∧ (∀ v id r,
       EUpdateProfile v id r
         ∈ res_trace (run (mutationFn raw_link (Some ana) ana) (signed_in false None)) →
       v !! "basic_info_updated_at" = ana !! "basic_info_updated_at").
Proof.
  assert (H1 : ana !!! "username" = opt_chain (Some ana) "username")
    by reflexivity.
  assert (H2 : ana !!! "phone" = opt_chain (Some ana) "phone")
    by reflexivity.
  split; [exact H1|]. split; [exact H2|].
  destruct (mutationFn_unrestricted_no_check raw_link (Some ana) ana
              (signed_in false None) H1 H2) as (Hrpc & _ & Hts).
  split; [exact Hrpc | exact Hts].
Defined.

(** C3: with a session, when the submitted phone differs from the cached
    one and the eligibility check of the backend answers [true], the
    mutator reads the clock and calls the backend write, for the session's
    user, with the submitted values, media links normalized, and
    [basic_info_updated_at] set to that time: the field set holds the
    submitted phone and the fresh time. *)
Theorem mutationFn_allowed_writes_phone_and_stamp
    (convertDropboxUrl : string -> string)
    (profile : option obj) (values : obj) (w : world) (s : Session) :
  w_session w = Some s →
  values !!! "phone" ≠ opt_chain profile "phone" →
  w_can_update_basic_info w (user_id s) = mkResponse (Some true) None →
  ∃ v r,
    res_trace (run (mutationFn convertDropboxUrl profile values) w)
    = [EGetSession (Some s);
       ERpcCanUpdateBasicInfo (user_id s) (mkResponse (Some true) None);
       ENowISOString (w_now w);
       EUpdateProfile v (user_id s) r]
    ∧ v = <["basic_info_updated_at" := JStr (w_now w)]>
            (normalize_media_spec convertDropboxUrl values)
    ∧ v !!! "phone" = values !!! "phone"
    ∧ v !!! "basic_info_updated_at" = JStr (w_now w).
Proof.
  intros Hs Hphone Hcheck. rewrite run_mutationFn, Hs. cbv zeta.
  rewrite (restricted_true profile values (or_intror Hphone)), Hcheck.
  cbn [error data not_canUpdate negb].
  set (v := <[_ := _]> _).
  assert (Hv : v !!! "phone" = values !!! "phone"
               ∧ v !!! "basic_info_updated_at" = JStr (w_now w)).
  { subst v. rewrite lookup_total_insert_eq, lookup_total_insert_ne by done.
    by rewrite normalize_other_total. }
  destruct (w_update_error w v (user_id s)); cbn [app res_trace];
    eexists v, _; (split; [reflexivity|]); (split; [reflexivity|]); exact Hv.
Qed.

Lemma mutationFn_allowed_writes_phone_and_stamp_witness :
  w_session (signed_in true None) = Some (mkSession "u1")
  ∧ ana_new_phone !!! "phone" ≠ opt_chain (Some ana) "phone"
  ∧ w_can_update_basic_info (signed_in true None) "u1"
    = mkResponse (Some true) None
  ∧ ∃ v r,
      res_trace (run (mutationFn raw_link (Some ana) ana_new_phone)
                   (signed_in true None))
      = [EGetSession (Some (mkSession "u1"));
         ERpcCanUpdateBasicInfo "u1" (mkResponse (Some true) None);
         ENowISOString "2024-05-01T12:00:00.000Z";
         EUpdateProfile v "u1" r]
      ∧ v = <["basic_info_updated_at" := JStr "2024-05-01T12:00:00.000Z"]>
              (normalize_media_spec raw_link ana_new_phone)
      ∧ v !!! "phone" = JStr "222"
      ∧ v !!! "basic_info_updated_at" = JStr "2024-05-01T12:00:00.000Z".
Proof.
  assert (H1 : ana_new_phone !!! "phone" ≠ opt_chain (Some ana) "phone")
    by (vm_compute; discriminate).
  split; [reflexivity|]. split; [exact H1|]. split; [reflexivity|].
  exact (mutationFn_allowed_writes_phone_and_stamp raw_link (Some ana)
           ana_new_phone (signed_in true None) (mkSession "u1")
           eq_refl H1 eq_refl).
Defined.



(** ** Handlers *)

(** C5: for a profile whose username is a non-empty string [u], copying
    the profile link writes the clipboard once, with the origin followed
    by [/perfil/] and [u]. *)
Theorem copyProfileLink_writes_share_url
    (profile : option obj) (u : string) (w : world) :
  u ≠ "" →
  opt_chain profile "username" = JStr u →
  clipboard_writes (res_trace (run (copyProfileLink profile) w))
  = [w_origin w ++ "/perfil/" ++ u]
  ∧ w_clipboard (res_world (run (copyProfileLink profile) w))
    = Some (w_origin w ++ "/perfil/" ++ u)
  ∧ res_outcome (run (copyProfileLink profile) w) = Returned tt.
Proof.
  intros Hu Hname. unfold copyProfileLink.
  rewrite Hname, (truthy_JStr u Hu). cbn [template]. steps.
  by cbn [clipboard_writes omap list_omap set_clipboard w_clipboard].
Qed.

Lemma copyProfileLink_writes_share_url_witness :
  "ana" ≠ ""
  ∧ opt_chain (Some ana) "username" = JStr "ana"
  ∧ w_origin (signed_in true None) = "https://x.test"
  ∧ clipboard_writes
      (res_trace (run (copyProfileLink (Some ana)) (signed_in true None)))
    = ["https://x.test/perfil/ana"].
Proof.
  assert (H1 : "ana" ≠ "") by discriminate.
  assert (H2 : opt_chain (Some ana) "username" = JStr "ana") by reflexivity.
  split; [exact H1|]. split; [exact H2|]. split; [reflexivity|].
  exact (proj1 (copyProfileLink_writes_share_url (Some ana) "ana"
                  (signed_in true None) H1 H2)).
Defined.

(** C10: a cancelled replacement prompt (answer [null]) does nothing but
    the prompt: no mutation, no form write, the world as it was.  Any
    other answer, the empty string included, starts one mutation whose
    values carry the answer as the media link. *)
Theorem image_prompt_cancel_or_mutate (profile : option obj) (w : world) :
  (w_prompt w = None →
   run (handleCoverImageClick profile) w
   = mkResult (Returned tt) w
       [EWindowPrompt "Cole aqui o link do Dropbox para a imagem de capa:"
          (or_empty (opt_chain profile "cover_url")) None]
   ∧ run (handleAvatarImageClick profile) w
     = mkResult (Returned tt) w
         [EWindowPrompt "Cole aqui o link do Dropbox para a foto de perfil:"
            (or_empty (opt_chain profile "avatar_url")) None])
  ∧ (∀ link, w_prompt w = Some link →
     (∃ v, mutations (res_trace (run (handleCoverImageClick profile) w)) = [v]
           ∧ v !!! "cover_url" = JStr link)
     ∧ (∃ v, mutations (res_trace (run (handleAvatarImageClick profile) w)) = [v]
             ∧ v !!! "avatar_url" = JStr link)).
Proof.
  unfold handleCoverImageClick, handleAvatarImageClick. split.
  - intros Hp. rewrite !run_Do. cbn [handle log fst snd]. rewrite Hp.
    by steps.
  - intros link Hp. rewrite !(run_Do (WindowPrompt _ _)).
    cbn [handle log fst snd]. rewrite Hp. steps.
    cbn [mutations omap list_omap set_form w_form].
    split; eexists; (split; [reflexivity|]); apply lookup_total_insert_eq.
Qed.

Lemma image_prompt_cancel_or_mutate_witness :
  w_prompt (signed_in true None) = None
  ∧ w_prompt (signed_in true (Some "")) = Some ""
  ∧ mutations (res_trace (run (handleCoverImageClick (Some ana))
                            (signed_in true None))) = []
  ∧ ∃ v, mutations (res_trace (run (handleAvatarImageClick (Some ana))
                                 (signed_in true (Some "")))) = [v]
         ∧ v !!! "avatar_url" = JStr "".
Proof.
  split; [reflexivity|]. split; [reflexivity|]. split.
  - destruct (proj1 (image_prompt_cancel_or_mutate (Some ana)
                       (signed_in true None)) eq_refl) as [Hrun _].
    rewrite Hrun. reflexivity.
  - exact (proj2 (proj2 (image_prompt_cancel_or_mutate (Some ana)
                           (signed_in true (Some ""))) "" eq_refl)).
Defined.

(** C8: what the [onError] closures of the cover and avatar images do
    when the image fails to load: they set the source of the image to the
    placeholder and return, and raise no toast.  The toast for a failed
    image is raised by [handleImageError] only, and no handler that the
    page attaches to an element ever raises it. *)
Theorem image_onError_sets_placeholder_without_toast
    (convertDropboxUrl : string -> string) (w : world) :
  run cover_onError w
  = mkResult (Returned tt) (set_target_src "/placeholder.svg" w)
      [ESetCurrentTargetSrc "/placeholder.svg"]
  ∧ run avatar_onError w
    = mkResult (Returned tt) (set_target_src "/placeholder.svg" w)
        [ESetCurrentTargetSrc "/placeholder.svg"]
  ∧ toasts (res_trace (run cover_onError w)) = []
  ∧ toasts (res_trace (run avatar_onError w)) = []
  ∧ toasts (res_trace (run handleImageError w)) = [image_error_toast]
  ∧ ∀ profile h values,
      EToast image_error_toast
        ∉ res_trace (run (invoke convertDropboxUrl profile h values) w).
Proof.
  do 5 (split; [reflexivity|]).
  intros profile h values Hin.
  by apply (never_trace _ _ _
              (invoke_never_image_error_toast convertDropboxUrl profile h values)
              _ Hin).
Qed.

(** ** The view *)






(** ** Further properties of the loaders *)

Lemma run_userProducts_queryFn (w : world) :
  run userProducts_queryFn w =
  match w_session w with
  | None => mkResult (Returned []) w [EGetSession None]
  | Some s =>
      mkResult
        (Returned (default [] (data (w_select_products w (user_id s)))))
        w
        [EGetSession (Some s);
         ESelectProducts (user_id s) (w_select_products w (user_id s))]
  end.
Proof.
  unfold userProducts_queryFn. rewrite run_Do. cbn [handle log fst snd].
  destruct (w_session w) as [s|]; steps; [|reflexivity].
  by destruct (data (w_select_products w (user_id s))).
Qed.

Lemma run_locations_queryFn (w : world) :
  run locations_queryFn w =
  mkResult (Returned (default [] (data (w_select_locations w)))) w
    [ESelectLocations (w_select_locations w)].
Proof.
  unfold locations_queryFn. steps. by destruct (data (w_select_locations w)).
Qed.

(** X1: when the backend answers the profile read with an error, the
    loader throws that very error, whatever [data] holds; it has read once,
    by the id of the session's user. *)
Theorem profile_queryFn_backend_error
    (convertDropboxUrl : string -> string) (w : world) (s : Session) (e : Error) :
  w_session w = Some s →
  error (w_select_profile w (user_id s)) = Some e →
  run (profile_queryFn convertDropboxUrl) w
  = mkResult (Threw e) w
      [EGetSession (Some s);
       ESelectProfile (user_id s) (w_select_profile w (user_id s))].
Proof.
  intros Hs He. rewrite run_profile_queryFn, Hs. cbv zeta. by rewrite He.
Qed.

Lemma profile_queryFn_backend_error_witness :
  w_session (backend (mkResponse None None) None (Some network_down) None)
  = Some (mkSession "u1")
  ∧ res_outcome
      (run (profile_queryFn raw_link)
         (backend (mkResponse None None) None (Some network_down) None))
    = Threw network_down.
Proof.
  split; [reflexivity|].
  rewrite (profile_queryFn_backend_error raw_link
             (backend (mkResponse None None) None (Some network_down) None)
             (mkSession "u1") network_down eq_refl eq_refl).
  reflexivity.
Defined.

(** X2: a row that the loader returns has the keys of the fetched row, no
    more and no fewer, and every property other than the two media links
    as fetched. *)
Theorem profile_queryFn_keeps_other_fields
    (convertDropboxUrl : string -> string) (w : world) (d : obj) :
  res_outcome (run (profile_queryFn convertDropboxUrl) w) = Returned (Some d) →
  ∃ s row,
    w_session w = Some s
    ∧ w_select_profile w (user_id s) = mkResponse (Some row) None
    ∧ (∀ k, is_Some (d !! k) ↔ is_Some (row !! k))
    ∧ (∀ k, k ≠ "avatar_url" → k ≠ "cover_url" → d !! k = row !! k).
Proof.
  rewrite run_profile_queryFn.
  destruct (w_session w) as [s|]; [|discriminate]. cbv zeta.
  destruct (w_select_profile w (user_id s)) as [[row|] [e|]] eqn:Hsel;
    cbn [res_outcome error data fmap option_fmap option_map]; try discriminate.
  intros [= <-]. exists s, row. split; [reflexivity|]. split; [exact Hsel|].
  split.
  - intros k. destruct (decide (k = "avatar_url" ∨ k = "cover_url")) as [Hk|Hk].
    + rewrite normalize_media by done. apply fmap_is_Some.
    + rewrite normalize_other by tauto. reflexivity.
  - intros k Ha Hc. by apply normalize_other.
Qed.

Lemma profile_queryFn_keeps_other_fields_witness :
  res_outcome (run (profile_queryFn raw_link) (signed_in true None))
  = Returned (Some (normalize_media_spec raw_link ana))
  ∧ ∃ s row,
      w_session (signed_in true None) = Some s
      ∧ w_select_profile (signed_in true None) (user_id s)
        = mkResponse (Some row) None
      ∧ (∀ k, is_Some (normalize_media_spec raw_link ana !! k)
              ↔ is_Some (row !! k))
      ∧ (∀ k, k ≠ "avatar_url" → k ≠ "cover_url" →
              normalize_media_spec raw_link ana !! k = row !! k).
Proof.
  assert (H : res_outcome (run (profile_queryFn raw_link) (signed_in true None))
              = Returned (Some (normalize_media_spec raw_link ana)))
    by (vm_compute; reflexivity).
  split; [exact H|].
  exact (profile_queryFn_keeps_other_fields raw_link (signed_in true None) _ H).
Defined.

(** X3: the three loaders only read.  In every world each of them leaves
    the world as it was and issues nothing but its own read, after the
    session lookup for the profile and the products; the locations loader
    does not look the session up at all and throws in no world. *)
Theorem loaders_only_read (convertDropboxUrl : string -> string) (w : world) :
  res_world (run (profile_queryFn convertDropboxUrl) w) = w
  ∧ res_world (run userProducts_queryFn w) = w
  ∧ res_world (run locations_queryFn w) = w
  ∧ Forall (fun e => match e with
                     | EGetSession _ | ESelectProfile _ _ => True
                     | _ => False
                     end)
      (res_trace (run (profile_queryFn convertDropboxUrl) w))
  ∧ Forall (fun e => match e with
                     | EGetSession _ | ESelectProducts _ _ => True
                     | _ => False
                     end)
      (res_trace (run userProducts_queryFn w))
  ∧ run locations_queryFn w
    = mkResult (Returned (default [] (data (w_select_locations w)))) w
        [ESelectLocations (w_select_locations w)].
Proof.
  rewrite run_profile_queryFn, run_userProducts_queryFn, run_locations_queryFn.
  destruct (w_session w); cbn [res_world res_trace]; repeat split;
    by repeat constructor.
Qed.

(** X4: with a session, the products loader reads the products of the
    session's user and returns the rows the backend sends, also when the
    answer carries an error: the error of this read is never looked at. *)
Theorem userProducts_queryFn_ignores_error
    (w : world) (s : Session) (rows : list obj) (e : option Error) :
  w_session w = Some s →
  w_select_products w (user_id s) = mkResponse (Some rows) e →
  run userProducts_queryFn w
  = mkResult (Returned rows) w
      [EGetSession (Some s);
       ESelectProducts (user_id s) (mkResponse (Some rows) e)].
Proof.
  intros Hs Hr. rewrite run_userProducts_queryFn, Hs, Hr. reflexivity.
Qed.

Lemma userProducts_queryFn_ignores_error_witness :
  w_session (backend (mkResponse None None) None (Some network_down) None)
  = Some (mkSession "u1")
  ∧ res_outcome
      (run userProducts_queryFn
         (backend (mkResponse None None) None (Some network_down) None))
    = Returned [ana].
Proof.
  split; [reflexivity|].
  rewrite (userProducts_queryFn_ignores_error
             (backend (mkResponse None None) None (Some network_down) None)
             (mkSession "u1") [ana] (Some network_down) eq_refl eq_refl).
  reflexivity.
Defined.

(** ** Further properties of the mutator *)

(** X5: without a session the mutator throws the authentication error
    before anything else: no eligibility check, no write, the world as it
    was. *)
Theorem mutationFn_no_session
    (convertDropboxUrl : string -> string)
    (profile : option obj) (values : obj) (w : world) :
  w_session w = None →
  run (mutationFn convertDropboxUrl profile values) w
  = mkResult (Threw not_authenticated) w [EGetSession None].
Proof. intros Hs. by rewrite run_mutationFn, Hs. Qed.

Lemma mutationFn_no_session_witness :
  w_session signed_out = None
  ∧ run (mutationFn raw_link (Some ana) bia) signed_out
    = mkResult (Threw not_authenticated) signed_out [EGetSession None].
Proof.
  split; [reflexivity|].
  exact (mutationFn_no_session raw_link (Some ana) bia signed_out eq_refl).
Defined.

(** X6: when username or phone changed and the eligibility check answers
    with an error, the mutator throws that error, whatever [data] the
    answer holds; it reads no clock and writes nothing. *)
Theorem mutationFn_check_error_rethrown
    (convertDropboxUrl : string -> string)
    (profile : option obj) (values : obj) (w : world) (s : Session) (e : Error) :
  w_session w = Some s →
  values !!! "username" ≠ opt_chain profile "username"
  ∨ values !!! "phone" ≠ opt_chain profile "phone" →
  error (w_can_update_basic_info w (user_id s)) = Some e →
  run (mutationFn convertDropboxUrl profile values) w
  = mkResult (Threw e) w
      [EGetSession (Some s);
       ERpcCanUpdateBasicInfo (user_id s)
         (w_can_update_basic_info w (user_id s))].
Proof.
  intros Hs Hr He. rewrite run_mutationFn, Hs. cbv zeta.
  by rewrite (restricted_true _ _ Hr), He.
Qed.

Lemma mutationFn_check_error_rethrown_witness :
  w_session (backend (mkResponse (Some true) (Some network_down)) None None None)
  = Some (mkSession "u1")
  ∧ (bia !!! "username" ≠ opt_chain (Some ana) "username"
     ∨ bia !!! "phone" ≠ opt_chain (Some ana) "phone")
  ∧ res_outcome
      (run (mutationFn raw_link (Some ana) bia)
         (backend (mkResponse (Some true) (Some network_down)) None None None))
    = Threw network_down.
Proof.
  assert (H : bia !!! "username" ≠ opt_chain (Some ana) "username"
              ∨ bia !!! "phone" ≠ opt_chain (Some ana) "phone")
    by (left; vm_compute; discriminate).
  split; [reflexivity|]. split; [exact H|].
  rewrite (mutationFn_check_error_rethrown raw_link (Some ana) bia
             (backend (mkResponse (Some true) (Some network_down)) None None None)
             (mkSession "u1") network_down eq_refl H eq_refl).
  reflexivity.
Defined.

(** X7: an eligibility check that answers [null] without an error counts
    as a refusal: the mutator throws the 30-day error and writes
    nothing. *)
Theorem mutationFn_null_answer_denied
    (convertDropboxUrl : string -> string)
    (profile : option obj) (values : obj) (w : world) (s : Session) :
  w_session w = Some s →
  values !!! "username" ≠ opt_chain profile "username"
  ∨ values !!! "phone" ≠ opt_chain profile "phone" →
  w_can_update_basic_info w (user_id s) = mkResponse None None →
  run (mutationFn convertDropboxUrl profile values) w
  = mkResult (Threw must_wait_30_days) w
      [EGetSession (Some s);
       ERpcCanUpdateBasicInfo (user_id s) (mkResponse None None)].
Proof.
  intros Hs Hr Hnull. rewrite run_mutationFn, Hs. cbv zeta.
  by rewrite (restricted_true _ _ Hr), Hnull.
Qed.

Lemma mutationFn_null_answer_denied_witness :
  w_session (backend (mkResponse None None) None None None)
  = Some (mkSession "u1")
  ∧ (ana_new_phone !!! "username" ≠ opt_chain (Some ana) "username"
     ∨ ana_new_phone !!! "phone" ≠ opt_chain (Some ana) "phone")
  ∧ res_outcome
      (run (mutationFn raw_link (Some ana) ana_new_phone)
         (backend (mkResponse None None) None None None))
    = Threw must_wait_30_days.
Proof.
  assert (H : ana_new_phone !!! "username" ≠ opt_chain (Some ana) "username"
              ∨ ana_new_phone !!! "phone" ≠ opt_chain (Some ana) "phone")
    by (right; vm_compute; discriminate).
  split; [reflexivity|]. split; [exact H|].
  rewrite (mutationFn_null_answer_denied raw_link (Some ana) ana_new_phone
             (backend (mkResponse None None) None None None)
             (mkSession "u1") eq_refl H eq_refl).
  reflexivity.
Defined.

(** Every event of an explicit trace, one after the other. *)
Ltac each_event H :=
  repeat (apply elem_of_cons in H as [->|H]);
  try (apply elem_of_nil in H; contradiction).

(** X8: whatever the values say, the mutator addresses the backend by the
    id of the session's user alone, in the eligibility check as in the
    write, and it writes at most once in a run. *)
Theorem mutationFn_keyed_by_session
    (convertDropboxUrl : string -> string)
    (profile : option obj) (values : obj) (w : world) :
  (∀ e, e ∈ res_trace (run (mutationFn convertDropboxUrl profile values) w) →
     match e with
     | ERpcCanUpdateBasicInfo id _ | EUpdateProfile _ id _ =>
         w_session w = Some (mkSession id)
     | _ => True
     end)
  ∧ (length (writes (res_trace (run (mutationFn convertDropboxUrl profile values) w)))
     ≤ 1)%nat.
Proof.
  rewrite run_mutationFn. cbv zeta.
  destruct (w_session w) as [[id]|]; cbn [user_id].
  2:{ split; [intros e H; by each_event H | cbn; lia]. }
  destruct (strict_neq _ _ || strict_neq _ _).
  - destruct (error (w_can_update_basic_info w id)).
    { split; [intros ev H; by each_event H | cbn; lia]. }
    destruct (not_canUpdate _).
    { split; [intros ev H; by each_event H | cbn; lia]. }
    destruct (w_update_error w _ id); cbn [app res_trace];
      (split; [intros ev H; by each_event H | cbn; lia]).
  - destruct (w_update_error w _ id); cbn [app res_trace];
      (split; [intros ev H; by each_event H | cbn; lia]).
Qed.

(** X9: the mutator returns exactly when the backend accepted its write;
    a write that the backend answers with an error makes the mutator
    throw that error, the world as it was. *)
Theorem mutationFn_returns_iff_write_accepted
    (convertDropboxUrl : string -> string)
    (profile : option obj) (values : obj) (w : world) :
  (res_outcome (run (mutationFn convertDropboxUrl profile values) w) = Returned tt
   ↔ ∃ v id, EUpdateProfile v id (mkResponse tt None)
               ∈ res_trace (run (mutationFn convertDropboxUrl profile values) w))
  ∧ (∀ v id e,
       EUpdateProfile v id (mkResponse tt (Some e))
         ∈ res_trace (run (mutationFn convertDropboxUrl profile values) w) →
       res_outcome (run (mutationFn convertDropboxUrl profile values) w) = Threw e
       ∧ res_world (run (mutationFn convertDropboxUrl profile values) w) = w).
Proof.
  rewrite run_mutationFn. cbv zeta.
  destruct (w_session w) as [s|].
  2:{ split; [split; [discriminate | intros (v & id & H); trace_inv H]
              | intros v id e H; trace_inv H]. }
  destruct (strict_neq _ _ || strict_neq _ _).
  - destruct (error (w_can_update_basic_info w (user_id s))).
    { split; [split; [discriminate | intros (v & id & H); trace_inv H]
              | intros v id e' H; trace_inv H]. }
    destruct (not_canUpdate _).
    { split; [split; [discriminate | intros (v & id & H); trace_inv H]
              | intros v id e' H; trace_inv H]. }
    destruct (w_update_error w _ (user_id s)) as [e|];
      cbn [app res_trace res_outcome res_world].
    + split; [split; [discriminate | intros (v & id & H); trace_inv H]|].
      intros v id e' H; trace_inv H. by injection H as _ _ <-.
    + split; [split; [intros _; eexists _, _; do 3 right; left
                     | reflexivity]|].
      intros v id e' H; trace_inv H.
  - destruct (w_update_error w _ (user_id s)) as [e|];
      cbn [app res_trace res_outcome res_world].
    + split; [split; [discriminate | intros (v & id & H); trace_inv H]|].
      intros v id e' H; trace_inv H. by injection H as _ _ <-.
    + split; [split; [intros _; eexists _, _; right; left
                     | reflexivity]|].
      intros v id e' H; trace_inv H.
Qed.

(** X10: a write of the mutator carries every submitted property other
    than the two media links and [basic_info_updated_at] exactly as it was
    submitted, missing ones missing. *)
Theorem mutationFn_writes_other_fields_as_submitted
    (convertDropboxUrl : string -> string)
    (profile : option obj) (values : obj) (w : world)
    (v : obj) (id : string) (r : Response unit) :
  EUpdateProfile v id r
    ∈ res_trace (run (mutationFn convertDropboxUrl profile values) w) →
  ∀ k, k ≠ "avatar_url" → k ≠ "cover_url" → k ≠ "basic_info_updated_at" →
       v !! k = values !! k.
Proof.
  rewrite run_mutationFn. cbv zeta.
  destruct (w_session w) as [s|]; [|intros H; trace_inv H].
  destruct (strict_neq _ _ || strict_neq _ _).
  - destruct (error (w_can_update_basic_info w (user_id s)));
      [intros H; trace_inv H|].
    destruct (not_canUpdate _); [intros H; trace_inv H|].
    destruct (w_update_error w _ (user_id s)); cbn [app res_trace];
      intros H; trace_inv H; injection H as -> _ _; intros k Ha Hc Hb;
      rewrite lookup_insert_ne by done; by apply normalize_other.
  - destruct (w_update_error w _ (user_id s)); cbn [app res_trace];
      intros H; trace_inv H; injection H as -> _ _; intros k Ha Hc Hb;
      by apply normalize_other.
Qed.

Lemma mutationFn_writes_other_fields_as_submitted_witness :
  EUpdateProfile
    (<["basic_info_updated_at" := JStr "2024-05-01T12:00:00.000Z"]>
       (normalize_media_spec raw_link bia))
    "u1" (mkResponse tt None)
    ∈ res_trace (run (mutationFn raw_link (Some ana) bia) (signed_in true None))
  ∧ (<["basic_info_updated_at" := JStr "2024-05-01T12:00:00.000Z"]>
       (normalize_media_spec raw_link bia)) !! "username"
    = bia !! "username".
Proof.
  assert (H : EUpdateProfile
                (<["basic_info_updated_at" := JStr "2024-05-01T12:00:00.000Z"]>
                   (normalize_media_spec raw_link bia))
                "u1" (mkResponse tt None)
              ∈ res_trace (run (mutationFn raw_link (Some ana) bia)
                             (signed_in true None)))
    by (vm_compute; repeat constructor).
  split; [exact H|].
  by apply (mutationFn_writes_other_fields_as_submitted raw_link (Some ana) bia
              (signed_in true None) _ _ _ H "username").
Defined.

(** X11: in a run that called the eligibility check, a write happens only
    when the check answered [true] without an error, and that write
    carries the time of the clock, read in the same run, as
    [basic_info_updated_at]. *)
Theorem mutationFn_writes_after_check_only_if_allowed
    (convertDropboxUrl : string -> string)
    (profile : option obj) (values : obj) (w : world)
    (uid id : string) (c : Response (option bool))
    (v : obj) (r : Response unit) :
  ERpcCanUpdateBasicInfo uid c
    ∈ res_trace (run (mutationFn convertDropboxUrl profile values) w) →
  EUpdateProfile v id r
    ∈ res_trace (run (mutationFn convertDropboxUrl profile values) w) →
  c = mkResponse (Some true) None
  ∧ v !!! "basic_info_updated_at" = JStr (w_now w)
  ∧ ENowISOString (w_now w)
      ∈ res_trace (run (mutationFn convertDropboxUrl profile values) w).
Proof.
  rewrite run_mutationFn. cbv zeta.
  destruct (w_session w) as [s|]; [|intros H; trace_inv H].
  destruct (strict_neq _ _ || strict_neq _ _).
  - destruct (w_can_update_basic_info w (user_id s)) as [[[|]|] [e|]];
      cbn [error data not_canUpdate negb]; try solve [intros _ H; trace_inv H].
    destruct (w_update_error w _ (user_id s)); cbn [app res_trace];
      intros Hc H; trace_inv Hc; trace_inv H;
      injection Hc as _ <-; injection H as -> _ _;
      (split; [reflexivity|]);
      (split; [apply lookup_total_insert_eq | by do 2 right; left]).
  - destruct (w_update_error w _ (user_id s)); cbn [app res_trace];
      intros H; trace_inv H.
Qed.

Lemma mutationFn_writes_after_check_only_if_allowed_witness :
  ERpcCanUpdateBasicInfo "u1" (mkResponse (Some true) None)
    ∈ res_trace (run (mutationFn raw_link (Some ana) bia) (signed_in true None))
  ∧ EUpdateProfile
      (<["basic_info_updated_at" := JStr "2024-05-01T12:00:00.000Z"]>
         (normalize_media_spec raw_link bia))
      "u1" (mkResponse tt None)
      ∈ res_trace (run (mutationFn raw_link (Some ana) bia) (signed_in true None))
  ∧ ENowISOString "2024-05-01T12:00:00.000Z"
      ∈ res_trace (run (mutationFn raw_link (Some ana) bia) (signed_in true None)).
Proof.
  assert (H1 : ERpcCanUpdateBasicInfo "u1" (mkResponse (Some true) None)
               ∈ res_trace (run (mutationFn raw_link (Some ana) bia)
                              (signed_in true None)))
    by (vm_compute; repeat constructor).
  assert (H2 : EUpdateProfile
                 (<["basic_info_updated_at" := JStr "2024-05-01T12:00:00.000Z"]>
                    (normalize_media_spec raw_link bia))
                 "u1" (mkResponse tt None)
               ∈ res_trace (run (mutationFn raw_link (Some ana) bia)
                              (signed_in true None)))
    by (vm_compute; repeat constructor).
  split; [exact H1|]. split; [exact H2|].
  exact (proj2 (proj2 (mutationFn_writes_after_check_only_if_allowed raw_link
                         (Some ana) bia (signed_in true None) _ _ _ _ _ H1 H2))).
Defined.

(** ** The mutation around the mutator *)

Lemma mutationFn_quiet
    (convertDropboxUrl : string -> string)
    (profile : option obj) (values : obj) (w : world) :
  toasts (res_trace (run (mutationFn convertDropboxUrl profile values) w)) = []
  ∧ invalidations
      (res_trace (run (mutationFn convertDropboxUrl profile values) w)) = [].
Proof.
  rewrite run_mutationFn. cbv zeta.
  destruct (w_session w) as [s|]; [|by split].
  destruct (strict_neq _ _ || strict_neq _ _).
  - destruct (error (w_can_update_basic_info w (user_id s))); [by split|].
    destruct (not_canUpdate _); [by split|].
    by destruct (w_update_error w _ (user_id s)).
  - by destruct (w_update_error w _ (user_id s)).
Qed.

Lemma run_mutateAsync
    (convertDropboxUrl : string -> string)
    (profile : option obj) (values : obj) (w : world) :
  run (mutateAsync convertDropboxUrl profile values) w =
  match res_outcome (run (mutationFn convertDropboxUrl profile values) w) with
  | Returned _ =>
      mkResult (Threw (not_defined "setShowSettings"))
        (res_world (run (mutationFn convertDropboxUrl profile values) w))
        (res_trace (run (mutationFn convertDropboxUrl profile values) w)
         ++ [EInvalidateQueries "profile"; EToast profile_updated_toast;
             EToast (update_failed_toast (not_defined "setShowSettings"))])
  | Threw e =>
      mkResult (Threw e)
        (res_world (run (mutationFn convertDropboxUrl profile values) w))
        (res_trace (run (mutationFn convertDropboxUrl profile values) w)
         ++ [EToast (update_failed_toast e)])
  end.
Proof.
  unfold mutateAsync. rewrite run_bind, run_attempt, run_bind.
  destruct (res_outcome (run (mutationFn _ _ _) w)) as [[]|e];
    unfold onSuccess, onError; steps; by rewrite <- ?app_assoc.
Qed.

(** X12: as the file stands, submitting the edit dialog always ends in an
    error, in the world the mutator left.  When the mutator throws, one
    destructive toast with the message of its error is raised, the cached
    profile is not invalidated and the error is thrown again.  When the
    mutator returns, the cached profile is invalidated and the success
    toast raised; then [setShowSettings], which the component declares
    nowhere, throws, so the destructive toast follows with that message
    and the submit throws the [ReferenceError]. *)
Theorem handleSubmit_reports_outcome
    (convertDropboxUrl : string -> string)
    (profile : option obj) (values : obj) (w : world) :
  res_outcome (run (handleSubmit convertDropboxUrl profile values) w)
  = Threw match res_outcome (run (mutationFn convertDropboxUrl profile values) w) with
          | Returned _ => not_defined "setShowSettings"
          | Threw e => e
          end
  ∧ res_world (run (handleSubmit convertDropboxUrl profile values) w)
    = res_world (run (mutationFn convertDropboxUrl profile values) w)
  ∧ toasts (res_trace (run (handleSubmit convertDropboxUrl profile values) w))
    = match res_outcome (run (mutationFn convertDropboxUrl profile values) w) with
      | Returned _ =>
          [ profile_updated_toast;
            update_failed_toast (not_defined "setShowSettings") ]
      | Threw e => [ update_failed_toast e ]
      end
  ∧ invalidations
      (res_trace (run (handleSubmit convertDropboxUrl profile values) w))
    = match res_outcome (run (mutationFn convertDropboxUrl profile values) w) with
      | Returned _ => ["profile"]
      | Threw _ => []
      end.
Proof.
  unfold handleSubmit. rewrite run_mutateAsync.
  destruct (mutationFn_quiet convertDropboxUrl profile values w) as [Ht Hi].
  destruct (res_outcome (run (mutationFn _ _ _) w)) as [[]|e];
    cbn [res_outcome res_world res_trace]; unfold toasts, invalidations in *;
    rewrite !omap_app, ?Ht, ?Hi; by repeat split.
Qed.

(** X13: when the edit dialog submits a changed username or phone and the
    eligibility check refuses, the user is shown the 30-day message in a
    destructive toast; nothing is written and the cached profile is not
    invalidated. *)
Theorem handleSubmit_refused_shows_30_days
    (convertDropboxUrl : string -> string)
    (profile : option obj) (values : obj) (w : world) (s : Session) :
  w_session w = Some s →
  values !!! "username" ≠ opt_chain profile "username"
  ∨ values !!! "phone" ≠ opt_chain profile "phone" →
  w_can_update_basic_info w (user_id s) = mkResponse (Some false) None →
  toasts (res_trace (run (handleSubmit convertDropboxUrl profile values) w))
  = [ mkToast "Erro ao atualizar perfil"
        "Você só pode alterar seu @ ou telefone após 30 dias da última atualização."
        (Some "destructive") ]
  ∧ writes (res_trace (run (handleSubmit convertDropboxUrl profile values) w)) = []
  ∧ invalidations
      (res_trace (run (handleSubmit convertDropboxUrl profile values) w)) = []
  ∧ res_world (run (handleSubmit convertDropboxUrl profile values) w) = w.
Proof.
  intros Hs Hr Hc. unfold handleSubmit.
  rewrite run_mutateAsync, run_mutationFn, Hs. cbv zeta.
  rewrite (restricted_true _ _ Hr), Hc. cbn [error data not_canUpdate negb].
  by repeat split.
Qed.

Lemma handleSubmit_refused_shows_30_days_witness :
  w_session (signed_in false None) = Some (mkSession "u1")
  ∧ (bia !!! "username" ≠ opt_chain (Some ana) "username"
     ∨ bia !!! "phone" ≠ opt_chain (Some ana) "phone")
  ∧ writes (res_trace (run (handleSubmit raw_link (Some ana) bia)
                         (signed_in false None))) = []
  ∧ invalidations (res_trace (run (handleSubmit raw_link (Some ana) bia)
                                (signed_in false None))) = [].
Proof.
  assert (H : bia !!! "username" ≠ opt_chain (Some ana) "username"
              ∨ bia !!! "phone" ≠ opt_chain (Some ana) "phone")
    by (left; vm_compute; discriminate).
  split; [reflexivity|]. split; [exact H|].
  destruct (handleSubmit_refused_shows_30_days raw_link (Some ana) bia
              (signed_in false None) (mkSession "u1") eq_refl H eq_refl)
    as (_ & Hw & Hi & _).
  split; [exact Hw | exact Hi].
Defined.

(** ** Further properties of the handlers *)

(** X14: copying the profile link does nothing at all when the profile is
    not loaded or its username is empty, [null] or missing: no clipboard
    write, no toast, the world as it was. *)
Theorem copyProfileLink_without_username (profile : option obj) (w : world) :
  truthy (opt_chain profile "username") = false →
  run (copyProfileLink profile) w = mkResult (Returned tt) w [].
Proof. intros Hu. unfold copyProfileLink. by rewrite Hu. Qed.

Lemma copyProfileLink_without_username_witness :
  truthy (opt_chain None "username") = false
  ∧ run (copyProfileLink None) (signed_in true None)
    = mkResult (Returned tt) (signed_in true None) [].
Proof.
  split; [reflexivity|].
  exact (copyProfileLink_without_username None (signed_in true None) eq_refl).
Defined.

Lemma run_handleCoverImageClick_answered
    (profile : option obj) (w : world) (link : string) :
  w_prompt w = Some link →
  run (handleCoverImageClick profile) w
  = mkResult (Returned tt) w
      [EWindowPrompt "Cole aqui o link do Dropbox para a imagem de capa:"
         (or_empty (opt_chain profile "cover_url")) (Some link);
       EFormGetValues (w_form w);
       EMutate (<["cover_url" := JStr link]> (w_form w))].
Proof.
  intros Hp. unfold handleCoverImageClick. rewrite run_Do.
  cbn [handle log fst snd]. rewrite Hp. by steps.
Qed.

Lemma run_handleAvatarImageClick_answered
    (profile : option obj) (w : world) (link : string) :
  w_prompt w = Some link →
  run (handleAvatarImageClick profile) w
  = mkResult (Returned tt)
      (set_form (<["avatar_url" := JStr link]> (w_form w)) w)
      [EWindowPrompt "Cole aqui o link do Dropbox para a foto de perfil:"
         (or_empty (opt_chain profile "avatar_url")) (Some link);
       EFormSetValue "avatar_url" (JStr link);
       EFormGetValues (<["avatar_url" := JStr link]> (w_form w));
       EMutate (<["avatar_url" := JStr link]> (w_form w))].
Proof.
  intros Hp. unfold handleAvatarImageClick. rewrite run_Do.
  cbn [handle log fst snd]. rewrite Hp. by steps.
Qed.

(** X15: an answered cover prompt submits the form values with [cover_url]
    replaced and does not write the form; an answered avatar prompt stores
    the answer in the form and submits the form values.  So an avatar
    click that follows a cover click, the form not reset in between,
    submits the cover link the form held before. *)
Theorem image_clicks_form_effect
    (profile : option obj) (w : world) (link : string) :
  w_prompt w = Some link →
  mutations (res_trace (run (handleCoverImageClick profile) w))
  = [<["cover_url" := JStr link]> (w_form w)]
  ∧ res_world (run (handleCoverImageClick profile) w) = w
  ∧ mutations (res_trace (run (handleAvatarImageClick profile) w))
    = [<["avatar_url" := JStr link]> (w_form w)]
  ∧ res_world (run (handleAvatarImageClick profile) w)
    = set_form (<["avatar_url" := JStr link]> (w_form w)) w
  ∧ ∃ v,
      mutations
        (res_trace (run (handleAvatarImageClick profile)
                      (res_world (run (handleCoverImageClick profile) w))))
      = [v]
      ∧ v !! "cover_url" = w_form w !! "cover_url".
Proof.
  intros Hp.
  pose proof (run_handleCoverImageClick_answered profile w link Hp) as Hc.
  pose proof (run_handleAvatarImageClick_answered profile w link Hp) as Ha.
  rewrite Hc. cbn [res_world res_trace]. rewrite Ha. cbn [res_world res_trace].
  do 4 (split; [reflexivity|]).
  eexists. split; [reflexivity|]. by rewrite lookup_insert_ne.
Qed.

Lemma image_clicks_form_effect_witness :
  w_prompt (signed_in true (Some "https://www.dropbox.com/b.png"))
  = Some "https://www.dropbox.com/b.png"
  ∧ res_world (run (handleCoverImageClick (Some ana))
                 (signed_in true (Some "https://www.dropbox.com/b.png")))
    = signed_in true (Some "https://www.dropbox.com/b.png").
Proof.
  split; [reflexivity|].
  exact (proj1 (proj2 (image_clicks_form_effect (Some ana)
                         (signed_in true (Some "https://www.dropbox.com/b.png"))
                         "https://www.dropbox.com/b.png" eq_refl))).
Defined.

(** X16: the link answered at a prompt reaches the backend normalized: the
    write of the mutation that the click starts carries the link rewritten
    by [convertDropboxUrl] when the answer is not empty, and the empty
    string, with the helper not called, when it is empty. *)
Theorem image_click_writes_normalized_link
    (convertDropboxUrl : string -> string)
    (profile cached : option obj) (w w' : world) (link : string)
    (v u : obj) (id : string) (r : Response unit) :
  w_prompt w = Some link →
  (v ∈ mutations (res_trace (run (handleAvatarImageClick profile) w))
   ∧ EUpdateProfile u id r
       ∈ res_trace (run (mutationFn convertDropboxUrl cached v) w') →
   u !! "avatar_url"
   = Some (if String.eqb link "" then JStr "" else JStr (convertDropboxUrl link)))
  ∧ (v ∈ mutations (res_trace (run (handleCoverImageClick profile) w))
     ∧ EUpdateProfile u id r
         ∈ res_trace (run (mutationFn convertDropboxUrl cached v) w') →
     u !! "cover_url"
     = Some (if String.eqb link "" then JStr "" else JStr (convertDropboxUrl link))).
Proof.
  intros Hp.
  pose proof (run_handleCoverImageClick_answered profile w link Hp) as Hc.
  pose proof (run_handleAvatarImageClick_answered profile w link Hp) as Ha.
  assert (Hw : ∀ (k : string) (o : obj),
             k = "avatar_url" ∨ k = "cover_url" →
             EUpdateProfile u id r
               ∈ res_trace (run (mutationFn convertDropboxUrl cached
                                   (<[k := JStr link]> o)) w') →
             u !! k = Some (if String.eqb link "" then JStr ""
                            else JStr (convertDropboxUrl link))).
  { intros k o Hk. rewrite run_mutationFn. cbv zeta.
    assert (Hn : normalize_media_spec convertDropboxUrl (<[k := JStr link]> o) !! k
                 = Some (if String.eqb link "" then JStr ""
                         else JStr (convertDropboxUrl link))).
    { rewrite normalize_media, lookup_insert_eq by done.
      cbn [fmap option_fmap option_map]. by rewrite normalize_link_cases. }
    destruct (w_session w') as [s|]; [|intros H; trace_inv H].
    destruct (strict_neq _ _ || strict_neq _ _).
    - destruct (error (w_can_update_basic_info w' (user_id s)));
        [intros H; trace_inv H|].
      destruct (not_canUpdate _); [intros H; trace_inv H|].
      destruct (w_update_error w' _ (user_id s)); cbn [app res_trace];
        intros H; trace_inv H; injection H as -> _ _;
        (rewrite lookup_insert_ne; [exact Hn | by destruct Hk as [->| ->]]).
    - destruct (w_update_error w' _ (user_id s)); cbn [app res_trace];
        intros H; trace_inv H; by injection H as -> _ _. }
  split.
  - rewrite Ha. cbn [res_trace]. intros [Hv Hu].
    apply list_elem_of_singleton in Hv as ->.
    apply (Hw "avatar_url" (w_form w)); [by left | exact Hu].
  - rewrite Hc. cbn [res_trace]. intros [Hv Hu].
    apply list_elem_of_singleton in Hv as ->.
    apply (Hw "cover_url" (w_form w)); [by right | exact Hu].
Qed.

Lemma image_click_writes_normalized_link_witness :
  w_prompt (signed_in true (Some "https://www.dropbox.com/b.png"))
  = Some "https://www.dropbox.com/b.png"
  ∧ (<["avatar_url" := JStr "https://www.dropbox.com/b.png"]> ana
       ∈ mutations (res_trace (run (handleAvatarImageClick (Some ana))
                      (signed_in true (Some "https://www.dropbox.com/b.png"))))
     ∧ EUpdateProfile
         (normalize_media_spec raw_link
            (<["avatar_url" := JStr "https://www.dropbox.com/b.png"]> ana))
         "u1" (mkResponse tt None)
         ∈ res_trace (run (mutationFn raw_link (Some ana)
                             (<["avatar_url" := JStr "https://www.dropbox.com/b.png"]> ana))
                        (signed_in true None)))
  ∧ normalize_media_spec raw_link
      (<["avatar_url" := JStr "https://www.dropbox.com/b.png"]> ana)
      !! "avatar_url"
    = Some (JStr "https://www.dropbox.com/b.png?raw=1").
Proof.
  assert (H : <["avatar_url" := JStr "https://www.dropbox.com/b.png"]> ana
                ∈ mutations (res_trace (run (handleAvatarImageClick (Some ana))
                               (signed_in true (Some "https://www.dropbox.com/b.png"))))
              ∧ EUpdateProfile
                  (normalize_media_spec raw_link
                     (<["avatar_url" := JStr "https://www.dropbox.com/b.png"]> ana))
                  "u1" (mkResponse tt None)
                  ∈ res_trace (run (mutationFn raw_link (Some ana)
                                      (<["avatar_url" := JStr "https://www.dropbox.com/b.png"]> ana))
                                 (signed_in true None)))
    by (split; vm_compute; repeat constructor).
  split; [reflexivity|]. split; [exact H|].
  exact (proj1 (image_click_writes_normalized_link raw_link (Some ana) (Some ana)
                  (signed_in true (Some "https://www.dropbox.com/b.png"))
                  (signed_in true None) "https://www.dropbox.com/b.png"
                  _ _ _ _ eq_refl) H).
Defined.

(** ** The form after the profile effect *)

Lemma or_empty_JStr (s : string) : or_empty (JStr s) = s.
Proof.
  unfold or_empty. cbn [truthy template].
  by destruct (String.eqb_spec s "") as [->|].
Qed.

Lemma or_empty_falsy (v : jsval) : truthy v = false → or_empty v = "".
Proof. intros H. unfold or_empty. by rewrite H. Qed.

Lemma truthy_inv (v : jsval) :
  truthy v = true → ∃ s, v = JStr s ∧ s ≠ "".
Proof.
  destruct v as [| |s]; try discriminate. cbn [truthy]. intros H.
  exists s. split; [reflexivity|]. by apply String.eqb_neq, negb_true_iff.
Qed.

(** Lookup of a concrete key in an object literal. *)
Ltac literal_lookup :=
  repeat (rewrite lookup_insert_ne by done);
  first [ rewrite lookup_insert_eq | rewrite lookup_singleton_eq
        | rewrite lookup_singleton_ne by done ].

Lemma form_reset_values_lookup
    (format_yyyy_MM_dd : string -> string) (p : obj) (k : string) :
  form_reset_values format_yyyy_MM_dd p !! k =
  if bool_decide (k ∈ form_fields)
  then Some (JStr (if bool_decide (k = "birth_date")
                   then (if truthy (p !!! "birth_date")
                         then format_yyyy_MM_dd (template (p !!! "birth_date"))
                         else "")
                   else or_empty (p !!! k)))
  else None.
Proof.
  destruct (decide (k ∈ form_fields)) as [Hin|Hout].
  - rewrite (bool_decide_eq_true_2 _ Hin). unfold form_fields in Hin.
    each_event Hin; unfold form_reset_values; literal_lookup; reflexivity.
  - rewrite (bool_decide_eq_false_2 _ Hout). unfold form_fields in Hout.
    rewrite !not_elem_of_cons in Hout.
    destruct Hout as (? & ? & ? & ? & ? & ? & ? & ? & ? & ? & ? & ? & ? & ? & _).
    unfold form_reset_values. by literal_lookup.
Qed.

(** X17: the object that the effect hands to [form.reset] has the fourteen
    form fields and no other, and every one of them is a string: a field
    that is [null], missing or empty in the profile becomes the empty
    string, a non-empty string other than the birth date is copied. *)
Theorem form_reset_values_strings
    (format_yyyy_MM_dd : string -> string) (p : obj) (k : string) :
  (is_Some (form_reset_values format_yyyy_MM_dd p !! k) ↔ k ∈ form_fields)
  ∧ (∀ v, form_reset_values format_yyyy_MM_dd p !! k = Some v → ∃ s, v = JStr s)
  ∧ (k ∈ form_fields → truthy (p !!! k) = false →
     form_reset_values format_yyyy_MM_dd p !! k = Some (JStr ""))
  ∧ (k ∈ form_fields → k ≠ "birth_date" → ∀ s, p !!! k = JStr s →
     form_reset_values format_yyyy_MM_dd p !! k = Some (JStr s)).
Proof.
  rewrite form_reset_values_lookup.
  destruct (decide (k ∈ form_fields)) as [Hin|Hout].
  - rewrite (bool_decide_eq_true_2 _ Hin). split; [by split; eauto|].
    split; [intros v [= <-]; eauto|]. split.
    + intros _ Hf. case_bool_decide as Hb.
      * subst k. by rewrite Hf.
      * by rewrite or_empty_falsy.
    + intros _ Hb s Hs. rewrite (bool_decide_eq_false_2 _ Hb), Hs.
      by rewrite or_empty_JStr.
  - rewrite (bool_decide_eq_false_2 _ Hout).
    split; [split; [by intros [? ?] | done]|].
    split; [discriminate|]. split; intros; done.
Qed.

Lemma form_reset_values_strings_witness :
  "phone" ∈ form_fields
  ∧ truthy (caio !!! "phone") = false
  ∧ form_reset_values iso_day caio !! "phone" = Some (JStr "").
Proof.
  assert (H1 : "phone" ∈ form_fields) by (vm_compute; repeat constructor).
  assert (H2 : truthy (caio !!! "phone") = false) by reflexivity.
  split; [exact H1|]. split; [exact H2|].
  exact (proj1 (proj2 (proj2 (form_reset_values_strings iso_day caio "phone")))
           H1 H2).
Defined.

Lemma form_reset_values_total
    (format_yyyy_MM_dd : string -> string) (p : obj) (k : string) :
  k ∈ form_fields → k ≠ "birth_date" →
  form_reset_values format_yyyy_MM_dd p !!! k = JStr (or_empty (p !!! k)).
Proof.
  intros Hin Hb. rewrite lookup_total_alt, form_reset_values_lookup.
  by rewrite (bool_decide_eq_true_2 _ Hin), (bool_decide_eq_false_2 _ Hb).
Qed.

Lemma username_phone_fields : "username" ∈ form_fields ∧ "phone" ∈ form_fields.
Proof. unfold form_fields. rewrite !elem_of_cons. tauto. Qed.

(** X18: for a profile whose phone is [null] or missing, the reset form
    holds the empty string there, which is not the cached value.  An avatar replacement started from that form therefore calls
    the eligibility check although neither field was edited, and fails
    with the 30-day error when the check refuses. *)
Theorem avatar_click_on_empty_phone_calls_check
    (convertDropboxUrl format_yyyy_MM_dd : string -> string)
    (p : obj) (w w' : world) (s : Session) (link : string) (v : obj) :
  truthy (p !!! "phone") = false →
  p !!! "phone" ≠ JStr "" →
  w_prompt w = Some link →
  w_session w' = Some s →
  v ∈ mutations
        (res_trace (run (handleAvatarImageClick (Some p))
                      (profile_effect format_yyyy_MM_dd (Some p) w))) →
  ERpcCanUpdateBasicInfo (user_id s) (w_can_update_basic_info w' (user_id s))
    ∈ res_trace (run (mutationFn convertDropboxUrl (Some p) v) w')
  ∧ (w_can_update_basic_info w' (user_id s) = mkResponse (Some false) None →
     run (mutationFn convertDropboxUrl (Some p) v) w'
     = mkResult (Threw must_wait_30_days) w'
         [EGetSession (Some s);
          ERpcCanUpdateBasicInfo (user_id s) (mkResponse (Some false) None)]).
Proof.
  intros Hf Hne Hp Hs.
  rewrite (run_handleAvatarImageClick_answered (Some p)
             (profile_effect format_yyyy_MM_dd (Some p) w) link) by exact Hp.
  cbn [res_trace profile_effect set_form w_form]. intros Hv.
  apply list_elem_of_singleton in Hv as ->.
  assert (Hr : (<["avatar_url" := JStr link]>
                  (form_reset_values format_yyyy_MM_dd p)) !!! "username"
               ≠ opt_chain (Some p) "username"
               ∨ (<["avatar_url" := JStr link]>
                    (form_reset_values format_yyyy_MM_dd p)) !!! "phone"
                 ≠ opt_chain (Some p) "phone").
  { right. rewrite lookup_total_insert_ne by done.
    rewrite form_reset_values_total by (done || apply username_phone_fields).
    rewrite (or_empty_falsy _ Hf). cbn [opt_chain]. congruence. }
  rewrite run_mutationFn, Hs. cbv zeta. rewrite (restricted_true _ _ Hr).
  split.
  - destruct (error (w_can_update_basic_info w' (user_id s)));
      [by repeat constructor|].
    destruct (not_canUpdate _); [by repeat constructor|].
    destruct (w_update_error w' _ (user_id s)); cbn [app res_trace];
      by repeat constructor.
  - by intros ->.
Qed.

Lemma avatar_click_on_empty_phone_calls_check_witness :
  truthy (caio !!! "phone") = false
  ∧ caio !!! "phone" ≠ JStr ""
  ∧ <["avatar_url" := JStr "https://www.dropbox.com/b.png"]>
      (form_reset_values iso_day caio)
      ∈ mutations
          (res_trace (run (handleAvatarImageClick (Some caio))
                        (profile_effect iso_day (Some caio)
                           (signed_in false (Some "https://www.dropbox.com/b.png")))))
  ∧ res_outcome
      (run (mutationFn raw_link (Some caio)
              (<["avatar_url" := JStr "https://www.dropbox.com/b.png"]>
                 (form_reset_values iso_day caio)))
         (signed_in false None))
    = Threw must_wait_30_days.
Proof.
  assert (H1 : truthy (caio !!! "phone") = false) by reflexivity.
  assert (H2 : caio !!! "phone" ≠ JStr "") by (vm_compute; discriminate).
  assert (H3 : <["avatar_url" := JStr "https://www.dropbox.com/b.png"]>
                 (form_reset_values iso_day caio)
                 ∈ mutations
                     (res_trace (run (handleAvatarImageClick (Some caio))
                                   (profile_effect iso_day (Some caio)
                                      (signed_in false
                                         (Some "https://www.dropbox.com/b.png"))))))
    by (vm_compute; repeat constructor).
  split; [exact H1|]. split; [exact H2|]. split; [exact H3|].
  rewrite (proj2 (avatar_click_on_empty_phone_calls_check raw_link iso_day caio
                    (signed_in false (Some "https://www.dropbox.com/b.png"))
                    (signed_in false None) (mkSession "u1")
                    "https://www.dropbox.com/b.png" _ H1 H2 eq_refl eq_refl H3)
             eq_refl).
  reflexivity.
Defined.

(** X19: for a profile whose username and phone are strings, the reset
    form holds exactly those strings, so an avatar or cover replacement
    started from that form never calls the eligibility check. *)
Theorem image_click_on_filled_profile_skips_check
    (convertDropboxUrl format_yyyy_MM_dd : string -> string)
    (p : obj) (w w' : world) (link : string) (v : obj) (name phone : string) :
  p !!! "username" = JStr name →
  p !!! "phone" = JStr phone →
  w_prompt w = Some link →
  v ∈ mutations
        (res_trace (run (handleAvatarImageClick (Some p))
                      (profile_effect format_yyyy_MM_dd (Some p) w)))
  ∨ v ∈ mutations
          (res_trace (run (handleCoverImageClick (Some p))
                        (profile_effect format_yyyy_MM_dd (Some p) w))) →
  ∀ id c, ERpcCanUpdateBasicInfo id c
            ∉ res_trace (run (mutationFn convertDropboxUrl (Some p) v) w').
Proof.
  intros Hn Hph Hp Hv.
  assert (Hk : ∃ k, (k = "avatar_url" ∨ k = "cover_url")
                    ∧ v = <[k := JStr link]> (form_reset_values format_yyyy_MM_dd p)).
  { destruct Hv as [Hv|Hv].
    - rewrite (run_handleAvatarImageClick_answered (Some p)
                 (profile_effect format_yyyy_MM_dd (Some p) w) link) in Hv
        by exact Hp.
      cbn [res_trace profile_effect set_form w_form] in Hv.
      apply list_elem_of_singleton in Hv. eauto.
    - rewrite (run_handleCoverImageClick_answered (Some p)
                 (profile_effect format_yyyy_MM_dd (Some p) w) link) in Hv
        by exact Hp.
      cbn [res_trace profile_effect set_form w_form] in Hv.
      apply list_elem_of_singleton in Hv. eauto. }
  destruct Hk as (k & Hk & ->).
  assert (Hu : (<[k := JStr link]> (form_reset_values format_yyyy_MM_dd p))
                 !!! "username" = opt_chain (Some p) "username").
  { rewrite lookup_total_insert_ne by (by destruct Hk as [->| ->]).
    rewrite form_reset_values_total by (done || apply username_phone_fields).
    cbn [opt_chain]. by rewrite Hn, or_empty_JStr. }
  assert (Hq : (<[k := JStr link]> (form_reset_values format_yyyy_MM_dd p))
                 !!! "phone" = opt_chain (Some p) "phone").
  { rewrite lookup_total_insert_ne by (by destruct Hk as [->| ->]).
    rewrite form_reset_values_total by (done || apply username_phone_fields).
    cbn [opt_chain]. by rewrite Hph, or_empty_JStr. }
  intros id c. rewrite run_mutationFn. cbv zeta.
  destruct (w_session w') as [s|]; [|intros H; trace_inv H].
  unfold strict_neq. rewrite !bool_decide_eq_false_2 by (intros Hne; by apply Hne).
  cbn [orb].
  destruct (w_update_error w' _ (user_id s)); cbn [app res_trace];
    intros H; trace_inv H.
Qed.

Lemma image_click_on_filled_profile_skips_check_witness :
  ana !!! "username" = JStr "ana"
  ∧ ana !!! "phone" = JStr "111"
  ∧ <["cover_url" := JStr "https://www.dropbox.com/b.png"]>
      (form_reset_values iso_day ana)
      ∈ mutations
          (res_trace (run (handleCoverImageClick (Some ana))
                        (profile_effect iso_day (Some ana)
                           (signed_in false (Some "https://www.dropbox.com/b.png")))))
  ∧ ∀ id c,
      ERpcCanUpdateBasicInfo id c
        ∉ res_trace
            (run (mutationFn raw_link (Some ana)
                    (<["cover_url" := JStr "https://www.dropbox.com/b.png"]>
                       (form_reset_values iso_day ana)))
               (signed_in false None)).
Proof.
  assert (H1 : ana !!! "username" = JStr "ana") by reflexivity.
  assert (H2 : ana !!! "phone" = JStr "111") by reflexivity.
  assert (H3 : <["cover_url" := JStr "https://www.dropbox.com/b.png"]>
                 (form_reset_values iso_day ana)
                 ∈ mutations
                     (res_trace (run (handleCoverImageClick (Some ana))
                                   (profile_effect iso_day (Some ana)
                                      (signed_in false
                                         (Some "https://www.dropbox.com/b.png"))))))
    by (vm_compute; repeat constructor).
  split; [exact H1|]. split; [exact H2|]. split; [exact H3|].
  exact (image_click_on_filled_profile_skips_check raw_link iso_day ana
           (signed_in false (Some "https://www.dropbox.com/b.png"))
           (signed_in false None) "https://www.dropbox.com/b.png" _ "ana" "111"
           H1 H2 eq_refl (or_intror H3)).
Defined.

(** ** Further properties of the page *)

(** X20: an image element is rendered only on a loaded page and only for a
    link that is a non-empty string; it is the cover or the avatar of the
    profile and carries its own fallback handler. *)
Theorem render_images_have_links
    (v : view) (src : jsval) (alt : string) (h : handler) :
  Img src alt h ∈ render v →
  isProfileLoading v = false
  ∧ (∃ s, src = JStr s ∧ s ≠ "")
  ∧ ((src = opt_chain (profile v) "cover_url" ∧ alt = "Capa"
      ∧ h = h_cover_onError)
     ∨ (src = opt_chain (profile v) "avatar_url" ∧ alt = "Avatar"
        ∧ h = h_avatar_onError)).
Proof.
  unfold render. destruct (isProfileLoading v).
  { intros H. trace_inv H. }
  rewrite !elem_of_app.
  destruct (truthy (opt_chain (profile v) "cover_url")) eqn:Hc;
    destruct (truthy (opt_chain (profile v) "avatar_url")) eqn:Ha;
    destruct (truthy (opt_chain (profile v) "status"));
    destruct (truthy (opt_chain (profile v) "city"));
    destruct (isPreviewMode v); cbn [action_column negb];
    rewrite ?elem_of_cons, ?elem_of_nil;
    intros H; repeat (destruct H as [H|H]); try discriminate H; try contradiction;
    injection H as -> -> ->; (split; [reflexivity|]);
    (split; [by apply truthy_inv | tauto]).
Qed.

Lemma render_images_have_links_witness :
  Img (JStr "https://www.dropbox.com/a.png") "Avatar" h_avatar_onError
    ∈ render (mkView false false (Some ana))
  ∧ isProfileLoading (mkView false false (Some ana)) = false.
Proof.
  assert (H : Img (JStr "https://www.dropbox.com/a.png") "Avatar" h_avatar_onError
              ∈ render (mkView false false (Some ana)))
    by (vm_compute; repeat constructor).
  split; [exact H|].
  exact (proj1 (render_images_have_links _ _ _ _ H)).
Defined.
